(** * py_gamma_sdk: the Gamma API client, blocking and non-blocking

    A shallow embedding of [py_gamma_sdk/client.py].  The blocking client
    ([GammaClient] and its sub-clients) is embedded in a state-and-exception
    monad over the log of calls made to the HTTP client; the non-blocking
    client ([AsyncGammaClient]) is embedded as coroutines that suspend at
    every awaited HTTP call and are driven to completion by an event loop. *)

From Stdlib Require Import String Ascii List ZArith Bool Lia.
From ExtLib Require Import Structures.Monad Structures.MonadExc.
Import ListNotations.
Import MonadNotation.

Local Open Scope list_scope.
Local Open Scope string_scope.
Local Open Scope monad_scope.

Set Warnings "-register-all".

(* ===================================================================== *)
(** ** Python strings *)
(* ===================================================================== *)

(** The methods of [str] that the client calls, on 8-bit characters. *)

Definition slash : ascii := "/"%char.
Definition dquote : ascii := "034"%char.

(** [c in chars] for a one-character [c]. *)
Definition in_chars (c : ascii) (chars : string) : bool :=
  existsb (Ascii.eqb c) (list_ascii_of_string chars).

(** [s.lstrip(chars)] *)
Fixpoint lstrip (chars s : string) : string :=
  match s with
  | EmptyString => EmptyString
  | String c s' => if in_chars c chars then lstrip chars s' else s
  end.

(** [s.rstrip(chars)] *)
Fixpoint rstrip (chars s : string) : string :=
  match s with
  | EmptyString => EmptyString
  | String c s' =>
      match rstrip chars s' with
      | EmptyString => if in_chars c chars then EmptyString else String c EmptyString
      | r => String c r
      end
  end.

(** [s.strip(chars)]: every leading and every trailing character that
    belongs to [chars] is removed. *)
Definition strip (chars s : string) : string := rstrip chars (lstrip chars s).

(** [s.split(sep)] for a separator of one character.  The result is never
    empty: a string without separator gives one part, itself. *)
Fixpoint split (sep : ascii) (s : string) : list string :=
  match s with
  | EmptyString => [EmptyString]
  | String c s' =>
      if Ascii.eqb c sep then EmptyString :: split sep s'
      else match split sep s' with
           | w :: ws => String c w :: ws
           | [] => [String c EmptyString]
           end
  end.

(** [sub in s] *)
Fixpoint contains (sub s : string) : bool :=
  prefix sub s ||
  match s with
  | EmptyString => false
  | String _ s' => contains sub s'
  end.

(** [sep.join(parts)] for a separator of one character: what [split]
    undoes. *)
Fixpoint join (sep : ascii) (parts : list string) : string :=
  match parts with
  | [] => EmptyString
  | [p] => p
  | p :: ps => p ++ String sep (join sep ps)
  end.

(** First and last character, when there is one. *)
Definition first_char (s : string) : option ascii :=
  match s with
  | EmptyString => None
  | String c _ => Some c
  end.

Fixpoint last_char (s : string) : option ascii :=
  match s with
  | EmptyString => None
  | String c EmptyString => Some c
  | String _ s' => last_char s'
  end.

(** Every character of [s] belongs to [chars]. *)
Definition all_in (chars s : string) : bool :=
  forallb (fun c => in_chars c chars) (list_ascii_of_string s).

(* ===================================================================== *)
(** ** Python values *)
(* ===================================================================== *)

(** What [response.json()] can return, which is also what [_request] hands
    to its callers: the text of a non-JSON response is a [str] like any
    other.  A [dict] keeps its items in insertion order, one per key. *)
Inductive pyvalue : Type :=
| PyNone
| PyBool (b : bool)
| PyInt (n : Z)
| PyFloat (literal : string)
| PyStr (s : string)
| PyList (items : list pyvalue)
| PyDict (items : list (string * pyvalue)).

Definition pydict : Type := list (string * pyvalue).

(** [d.get(key)] *)
Fixpoint dict_lookup (key : string) (d : pydict) : option pyvalue :=
  match d with
  | [] => None
  | (k, v) :: d' => if String.eqb k key then Some v else dict_lookup key d'
  end.

(** [d.get(key, default)] *)
Definition dict_get (key : string) (default : pyvalue) (d : pydict) : pyvalue :=
  match dict_lookup key d with
  | Some v => v
  | None => default
  end.

(** [d[key] = v]: the value of an existing key is replaced where it stands,
    a new key goes to the end. *)
Fixpoint dict_set (key : string) (v : pyvalue) (d : pydict) : pydict :=
  match d with
  | [] => [(key, v)]
  | (k, w) :: d' =>
      if String.eqb k key then (k, v) :: d' else (k, w) :: dict_set key v d'
  end.

(* ===================================================================== *)
(** ** The HTTP client and the exceptions *)
(* ===================================================================== *)

(** The keyword arguments of [_http_client.request]: the client only ever
    passes [params], or nothing. *)
Record Request : Type := mkRequest {
  req_method : string;
  req_endpoint : string;
  req_params : option pydict
}.

(** The part of an [httpx.Response] the client reads. [content_type] is
    the [Content-Type] header, when the response has one. *)
Record Response : Type := mkResponse {
  status_code : Z;
  content_type : option string;
  text : string
}.

(** Modelled from the spec: [exceptions.py] is not among the sources.  The
    taxonomy is the one of the error handling design: [GammaError] is the
    common ancestor of [GammaAPIError] (status code and raw body when
    available), [NotFoundError] and [ValidationError].  [HTTPStatusError]
    is httpx's; [PyError cls message] is any other exception, of class
    [cls]: an error of the interpreter ([TypeError], [AttributeError]) or
    of a library ([ConnectError], [JSONDecodeError], [ValueError]). *)
Inductive exn : Type :=
| GammaAPIError (message : string) (status : option Z) (response_text : option string)
| NotFoundError (message : string) (status : option Z)
| ValidationError (message : string)
| HTTPStatusError (message : string) (response : Response)
| PyError (cls : string) (message : string).

(** [isinstance(e, GammaError)] *)
Definition is_GammaError (e : exn) : bool :=
  match e with
  | GammaAPIError _ _ _ | NotFoundError _ _ | ValidationError _ => true
  | HTTPStatusError _ _ | PyError _ _ => false
  end.

(** [isinstance(e, NotFoundError)] *)
Definition is_NotFoundError (e : exn) : bool :=
  match e with
  | NotFoundError _ _ => true
  | _ => false
  end.

(** [str(e)] *)
Definition exn_str (e : exn) : string :=
  match e with
  | GammaAPIError m _ _ | NotFoundError m _ | ValidationError m
  | HTTPStatusError m _ | PyError _ m => m
  end.

(** The status code an SDK error carries. *)
Definition exn_status (e : exn) : option Z :=
  match e with
  | GammaAPIError _ s _ | NotFoundError _ s => s
  | _ => None
  end.

(** What one call of the HTTP client's [request] comes to: a response of
    any status, or an exception of the transport (DNS, connection reset,
    timeout, protocol error), of class [cls]. *)
Inductive http_outcome : Type :=
| Responded (r : Response)
| Failed (cls message : string).

(** [response.is_success] of httpx: the status is 2xx. *)
Definition is_success (r : Response) : bool :=
  (200 <=? status_code r)%Z && (status_code r <=? 299)%Z.

(* ===================================================================== *)
(** ** Results, the blocking monad and coroutines *)
(* ===================================================================== *)

Inductive result (A : Type) : Type :=
| Ok (a : A)
| Raise (e : exn).
Arguments Ok {A} a.
Arguments Raise {A} e.

#[global] Instance Monad_result : Monad result := {
  ret := fun A a => Ok a;
  bind := fun A B c f => match c with Ok a => f a | Raise e => Raise e end
}.

#[global] Instance Exc_result : MonadExc exn result := {
  raise := fun A e => Raise e;
  catch := fun A c h => match c with Ok a => Ok a | Raise e => h e end
}.

(** A blocking computation: it runs against the log of the calls made to
    the HTTP client so far, and returns or raises, with the log extended by
    its own calls.  The log survives an exception. *)
Definition IO (A : Type) : Type := list Request -> result A * list Request.

#[global] Instance Monad_IO : Monad IO := {
  ret := fun A a log => (Ok a, log);
  bind := fun A B c f log =>
            match c log with
            | (Ok a, log') => f a log'
            | (Raise e, log') => (Raise e, log')
            end
}.

#[global] Instance Exc_IO : MonadExc exn IO := {
  raise := fun A e log => (Raise e, log);
  catch := fun A c h log =>
             match c log with
             | (Ok a, log') => (Ok a, log')
             | (Raise e, log') => h e log'
             end
}.

(** A coroutine of the non-blocking client: it has returned, it has
    raised, or it is suspended on an HTTP call and resumes with what the
    call comes to. *)
Inductive coro (A : Type) : Type :=
| Done (a : A)
| Throw (e : exn)
| Await (req : Request) (k : http_outcome -> coro A).
Arguments Done {A} a.
Arguments Throw {A} e.
Arguments Await {A} req k.

Fixpoint coro_bind {A B : Type} (c : coro A) (f : A -> coro B) : coro B :=
  match c with
  | Done a => f a
  | Throw e => Throw e
  | Await req k => Await req (fun o => coro_bind (k o) f)
  end.

Fixpoint coro_catch {A : Type} (c : coro A) (h : exn -> coro A) : coro A :=
  match c with
  | Done a => Done a
  | Throw e => h e
  | Await req k => Await req (fun o => coro_catch (k o) h)
  end.

#[global] Instance Monad_coro : Monad coro := {
  ret := fun A a => Done a;
  bind := fun A B c f => coro_bind c f
}.

#[global] Instance Exc_coro : MonadExc exn coro := {
  raise := fun A e => Throw e;
  catch := fun A c h => coro_catch c h
}.

(** A pure outcome, inside either monad. *)
Definition lift {m : Type -> Type} `{Monad m} `{MonadExc exn m}
    {A : Type} (r : result A) : m A :=
  match r with
  | Ok a => ret a
  | Raise e => raise e
  end.

(* ===================================================================== *)
(** ** The client *)
(* ===================================================================== *)

(** The typed entities of [models.py]. *)
Inductive model : Type :=
| Market | Event | Tag | Team | SportMetadata | Series | Comment | Profile.

(** What [urlparse] returns. *)
Record ParseResult : Type := mkParseResult {
  scheme : string;
  netloc : string;
  path : string;
  params : string;
  query : string;
  fragment : string
}.

(* ===================================================================== *)
(** ** Collaborators of the examples *)
(* ===================================================================== *)

(** Concrete collaborators, for the examples that close the development:
    the client itself is stated over any decoder, any [urlparse], any
    entity classes and any transport. *)

(** [s.partition(c)]: what stands before the first [c], and what stands
    after it when there is one. *)
Fixpoint cut (c : ascii) (s : string) : string * option string :=
  match s with
  | EmptyString => (EmptyString, None)
  | String a s' =>
      if Ascii.eqb a c then (EmptyString, Some s')
      else let (before, after) := cut c s' in (String a before, after)
  end.

Definition or_empty (o : option string) : string :=
  match o with
  | Some s => s
  | None => EmptyString
  end.

(** [urlparse] on the URLs of the examples,
    [scheme://netloc/path?query#fragment] without [;params]. *)
Definition urlparse_basic (url : string) : string + ParseResult :=
  let (u1, frag) := cut "#" url in
  let (u2, qry) := cut "?" u1 in
  let (sch, rest) :=
    match cut ":" u2 with
    | (s, Some r) => if contains "/" s then (EmptyString, u2) else (s, r)
    | (_, None) => (EmptyString, u2)
    end in
  let (loc, pth) :=
    match rest with
    | String "/" (String "/" r) =>
        match cut "/" r with
        | (n, Some p) => (n, String "/" p)
        | (n, None) => (n, EmptyString)
        end
    | _ => (EmptyString, rest)
    end in
  inr (mkParseResult sch loc pth EmptyString (or_empty qry) (or_empty frag)).

(** [s] between double quotes. *)
Definition quoted (s : string) : string :=
  String dquote (s ++ String dquote EmptyString).

(** The JSON documents of the examples, with the values they decode to. *)
Definition market_types_document : string :=
  "{" ++ quoted "marketTypes" ++ ": [" ++ quoted "a" ++ ", " ++ quoted "b" ++ "]}".

Definition market_document : string :=
  "{" ++ quoted "slug" ++ ": " ++ quoted "b" ++ "}".

Definition documents : list (string * pyvalue) :=
  [ ("[]", PyList []);
    ("{}", PyDict []);
    (market_types_document,
     PyDict [("marketTypes", PyList [PyStr "a"; PyStr "b"])]);
    (market_document, PyDict [("slug", PyStr "b")]);
    ("[" ++ market_document ++ "]", PyList [PyDict [("slug", PyStr "b")]]) ].

(** A JSON decoder that knows these documents and rejects any other
    text. *)
Definition json_loads_table (s : string) : string + pyvalue :=
  match find (fun d => String.eqb (fst d) s) documents with
  | Some d => inr (snd d)
  | None => inl "Expecting value"
  end.

Definition status_message_plain (r : Response) : string :=
  if (status_code r <? 500)%Z then "Client error" else "Server error".

(** Entities that are the keyword arguments they were built from. *)
Definition record_raw (m : model) : Type := pydict.

Definition init_raw (m : model) (kwargs : pydict) : result (record_raw m) :=
  Ok kwargs.

(** A remote that answers by endpoint, whatever was asked before, and
    cannot be reached on any other endpoint. *)
Definition transport_table (table : list (string * http_outcome))
    (log : list Request) (req : Request) : http_outcome :=
  match find (fun row => String.eqb (fst row) (req_endpoint req)) table with
  | Some row => snd row
  | None => Failed "ConnectError" "All connection attempts failed"
  end.

Definition json_response (status : Z) (body : string) : http_outcome :=
  Responded (mkResponse status (Some "application/json") body).

Definition text_response (status : Z) (body : string) : http_outcome :=
  Responded (mkResponse status (Some "text/plain; charset=utf-8") body).

(** The remotes of the examples. *)

(** No market has the slug, an event has. *)
Definition remote_event_only : list Request -> Request -> http_outcome :=
  transport_table
    [ ("/markets/slug/fed-decision", json_response 200 "[]");
      ("/events/slug/fed-decision", json_response 200 "{}") ].

(** The market is missing with status 404, the event is there. *)
Definition remote_event_after_404 : list Request -> Request -> http_outcome :=
  transport_table
    [ ("/markets/slug/fed-decision", text_response 404 "Not Found");
      ("/events/slug/fed-decision", json_response 200 "{}") ].

(** The Markets endpoint answers a slug with a list of one market, with
    an empty list, or with a bare market. *)
Definition remote_market_list : list Request -> Request -> http_outcome :=
  transport_table
    [ ("/markets/slug/b", json_response 200 ("[" ++ market_document ++ "]"));
      ("/markets/slug/none", json_response 200 "[]");
      ("/markets/slug/bare", json_response 200 market_document) ].

(** A remote with a missing market, a failing endpoint, a page of HTML
    announced as JSON, a status that is a bare quoted string, and the
    sports market types. *)
Definition remote_misc : list Request -> Request -> http_outcome :=
  transport_table
    [ ("/markets/0", text_response 404 "Not Found");
      ("/series", text_response 500 "Internal Server Error");
      ("/teams", json_response 200 "<html>");
      ("/status", text_response 200 (quoted "OK"));
      ("/sports/market-types", json_response 200 market_types_document);
      ("/search", json_response 200 "{}") ].

(** A remote whose market types object has no field. *)
Definition remote_no_types : list Request -> Request -> http_outcome :=
  transport_table [ ("/sports/market-types", json_response 200 "{}") ].

(** Further documents: a list whose second item is not an object, and
    null. *)
Definition documents_further : list (string * pyvalue) :=
  (documents
   ++ [ ("[{}, 1]", PyList [PyDict []; PyInt 1]);
        ("null", PyNone) ])%list.

Definition json_loads_further (s : string) : string + pyvalue :=
  match find (fun d => String.eqb (fst d) s) documents_further with
  | Some d => inr (snd d)
  | None => inl "Expecting value"
  end.

(** A remote whose lists are a list of one market, a list with a number
    in it, an empty object, an empty text and null, and which answers an
    identifier with a list. *)
Definition remote_lists : list Request -> Request -> http_outcome :=
  transport_table
    [ ("/markets", json_response 200 ("[" ++ market_document ++ "]"));
      ("/tags", json_response 200 "[{}, 1]");
      ("/events", json_response 200 "{}");
      ("/series", text_response 200 EmptyString);
      ("/comments", json_response 200 "null");
      ("/markets/7", json_response 200 "[]");
      ("/sports/market-types", json_response 200 "[]") ].

Section Client.

(** The collaborators of the client that are not its own code.
    - [json_loads]: the JSON decoder behind [response.json()]; [inl] is
      the message of the error it raises on a malformed body.
    - [urlparse]: [urllib.parse.urlparse]; [inl] is the message of the
      [ValueError] it raises.
    - [status_message]: the text httpx gives the [HTTPStatusError] of a
      response.
    - [record m] and [init m]: the entity classes of [models.py], which
      is not among the sources, and their constructors called with
      keyword arguments.
    - [transport]: what a call of the HTTP client comes to, given the
      calls made before it.  The blocking [httpx.Client] and the
      non-blocking [httpx.AsyncClient] are the same remote. *)
Variable json_loads : string -> string + pyvalue.
Variable urlparse : string -> string + ParseResult.
Variable status_message : Response -> string.
Variable record : model -> Type.
Variable init : forall m : model, pydict -> result (record m).
Variable transport : list Request -> Request -> http_outcome.

Set Default Proof Using "Type".

(** *** Python constructs the methods share *)

(** [cls( **data )]: [data] has to be a mapping. *)
Definition new (m : model) (data : pyvalue) : result (record m) :=
  match data with
  | PyDict kwargs => init m kwargs
  | _ => Raise (PyError "TypeError" "argument after ** must be a mapping")
  end.

(** [for item in data]: a list gives its items, a dict its keys, a str
    its characters; nothing else is iterable. *)
Definition py_iter (data : pyvalue) : result (list pyvalue) :=
  match data with
  | PyList items => Ok items
  | PyDict items => Ok (map (fun kv => PyStr (fst kv)) items)
  | PyStr s =>
      Ok (map (fun c => PyStr (String c EmptyString)) (list_ascii_of_string s))
  | _ => Raise (PyError "TypeError" "object is not iterable")
  end.

Fixpoint map_result {A B : Type} (f : A -> result B) (l : list A)
  : result (list B) :=
  match l with
  | [] => Ok []
  | x :: l' =>
      match f x with
      | Ok y =>
          match map_result f l' with
          | Ok ys => Ok (y :: ys)
          | Raise e => Raise e
          end
      | Raise e => Raise e
      end
  end.

(** [[cls( **item ) for item in data]] *)
Definition new_each (m : model) (data : pyvalue) : result (list (record m)) :=
  match py_iter data with
  | Ok items => map_result (new m) items
  | Raise e => Raise e
  end.

(** [data.get(key, default)]: only a dict has the method. *)
Definition py_get (data : pyvalue) (key : string) (default : pyvalue)
  : result pyvalue :=
  match data with
  | PyDict d => Ok (dict_get key default d)
  | _ => Raise (PyError "AttributeError" "object has no attribute 'get'")
  end.

(** The keyword arguments of a call to a method whose signature ends
    with [**params], the parameters named in [positional] being given by
    position: a keyword with the name of one of them makes the call raise
    [TypeError] before the body of the method runs, and the call binds
    [params] to the keywords otherwise. *)
Definition bind_keywords (positional : list string) (kwargs : pydict)
  : result pydict :=
  match find (fun kv => existsb (String.eqb (fst kv)) positional) kwargs with
  | Some kv =>
      Raise (PyError "TypeError"
               ("got multiple values for argument '" ++ fst kv ++ "'"))
  | None => Ok kwargs
  end.

(** [response.headers.get("Content-Type", "")] *)
Definition headers_get_content_type (r : Response) : string :=
  match content_type r with
  | Some v => v
  | None => EmptyString
  end.

(** [response.json()] *)
Definition response_json (r : Response) : result pyvalue :=
  match json_loads (text r) with
  | inr v => Ok v
  | inl msg => Raise (PyError "JSONDecodeError" msg)
  end.

(** [response.raise_for_status()] *)
Definition raise_for_status (r : Response) : result unit :=
  if is_success r then Ok tt else Raise (HTTPStatusError (status_message r) r).

(** *** GammaClient: the transport *)

(** [self._http_client.request(method, endpoint, **kwargs)] of the
    blocking client: the call is logged, then answered. *)
Definition Client_request (req : Request) : IO Response :=
  fun log =>
    match transport log req with
    | Responded r => (Ok r, log ++ [req])%list
    | Failed cls msg => (Raise (PyError cls msg), log ++ [req])%list
    end.

Definition GammaClient__request (method endpoint : string)
    (kwargs : option pydict) : IO pyvalue :=
  catch
    (response <- Client_request (mkRequest method endpoint kwargs) ;;
     if (status_code response =? 404)%Z then
       raise (NotFoundError ("Resource not found: " ++ endpoint) (Some 404%Z))
     else
       lift (raise_for_status response) ;;
       let content_type := headers_get_content_type response in
       if contains "application/json" content_type then
         lift (response_json response)
       else
         ret (PyStr (strip (String dquote EmptyString) (text response))))
    (fun e =>
       match e with
       | HTTPStatusError _ r =>
           raise (GammaAPIError ("API Error: " ++ exn_str e)
                                (Some (status_code r)) (Some (text r)))
       | _ =>
           if is_GammaError e then raise e
           else raise (GammaAPIError ("Unexpected Error: " ++ exn_str e) None None)
       end).

(** *** The blocking sub-clients *)

(** A method declared with [**params] binds the keywords of the call
    before its body runs: see [bind_keywords]. *)

Definition SportsClient_list_teams (params : pydict) : IO (list (record Team)) :=
  params <- lift (bind_keywords ["self"] params) ;;
  data <- GammaClient__request "GET" "/teams" (Some params) ;;
  lift (new_each Team data).

Definition SportsClient_get_metadata : IO (list (record SportMetadata)) :=
  data <- GammaClient__request "GET" "/sports" None ;;
  lift (new_each SportMetadata data).

Definition SportsClient_get_market_types : IO pyvalue :=
  data <- GammaClient__request "GET" "/sports/market-types" None ;;
  lift (py_get data "marketTypes" (PyList [])).

Definition TagsClient_list (params : pydict) : IO (list (record Tag)) :=
  params <- lift (bind_keywords ["self"] params) ;;
  data <- GammaClient__request "GET" "/tags" (Some params) ;;
  lift (new_each Tag data).

Definition TagsClient_get_by_id (tag_id : string) : IO (record Tag) :=
  data <- GammaClient__request "GET" ("/tags/" ++ tag_id) None ;;
  lift (new Tag data).

Definition TagsClient_get_by_slug (slug : string) : IO (record Tag) :=
  data <- GammaClient__request "GET" ("/tags/slug/" ++ slug) None ;;
  lift (new Tag data).

Definition TagsClient_get_related_by_id (tag_id : string) : IO pyvalue :=
  GammaClient__request "GET" ("/tags-related-tag-id/" ++ tag_id) None.

Definition TagsClient_get_related_by_slug (slug : string) : IO pyvalue :=
  GammaClient__request "GET" ("/tags-related-tag-slug/" ++ slug) None.

Definition TagsClient_get_tags_related_to_id (tag_id : string)
  : IO (list (record Tag)) :=
  data <- GammaClient__request "GET" ("/tags/" ++ tag_id ++ "/related") None ;;
  lift (new_each Tag data).

Definition TagsClient_get_tags_related_to_slug (slug : string)
  : IO (list (record Tag)) :=
  data <- GammaClient__request "GET" ("/tags/slug/" ++ slug ++ "/related") None ;;
  lift (new_each Tag data).

Definition EventsClient_list (params : pydict) : IO (list (record Event)) :=
  params <- lift (bind_keywords ["self"] params) ;;
  data <- GammaClient__request "GET" "/events" (Some params) ;;
  lift (new_each Event data).

Definition EventsClient_get_by_id (event_id : string) : IO (record Event) :=
  data <- GammaClient__request "GET" ("/events/" ++ event_id) None ;;
  lift (new Event data).

Definition EventsClient_get_tags (event_id : string) : IO (list (record Tag)) :=
  data <- GammaClient__request "GET" ("/events/" ++ event_id ++ "/tags") None ;;
  lift (new_each Tag data).

Definition EventsClient_get_by_slug (slug : string) : IO (record Event) :=
  data <- GammaClient__request "GET" ("/events/slug/" ++ slug) None ;;
  lift (new Event data).

Definition MarketsClient_list (params : pydict) : IO (list (record Market)) :=
  params <- lift (bind_keywords ["self"] params) ;;
  data <- GammaClient__request "GET" "/markets" (Some params) ;;
  lift (new_each Market data).

Definition MarketsClient_get_by_id (market_id : string) : IO (record Market) :=
  data <- GammaClient__request "GET" ("/markets/" ++ market_id) None ;;
  lift (new Market data).

Definition MarketsClient_get_tags (market_id : string) : IO (list (record Tag)) :=
  data <- GammaClient__request "GET" ("/markets/" ++ market_id ++ "/tags") None ;;
  lift (new_each Tag data).

(** The result is [None] on an empty list. *)
Definition MarketsClient_get_by_slug (slug : string)
  : IO (option (record Market)) :=
  data <- GammaClient__request "GET" ("/markets/slug/" ++ slug) None ;;
  match data with
  | PyList items =>
      match items with
      | item0 :: _ => market <- lift (new Market item0) ;; ret (Some market)
      | [] => ret None
      end
  | _ => market <- lift (new Market data) ;; ret (Some market)
  end.

Definition SeriesClient_list (params : pydict) : IO (list (record Series)) :=
  params <- lift (bind_keywords ["self"] params) ;;
  data <- GammaClient__request "GET" "/series" (Some params) ;;
  lift (new_each Series data).

Definition SeriesClient_get_by_id (series_id : string) : IO (record Series) :=
  data <- GammaClient__request "GET" ("/series/" ++ series_id) None ;;
  lift (new Series data).

Definition CommentsClient_list (params : pydict) : IO (list (record Comment)) :=
  params <- lift (bind_keywords ["self"] params) ;;
  data <- GammaClient__request "GET" "/comments" (Some params) ;;
  lift (new_each Comment data).

Definition CommentsClient_get_by_id (comment_id : string) : IO (record Comment) :=
  data <- GammaClient__request "GET" ("/comments/" ++ comment_id) None ;;
  lift (new Comment data).

Definition CommentsClient_get_by_user (address : string)
  : IO (list (record Comment)) :=
  data <- GammaClient__request "GET" ("/comments/user/" ++ address) None ;;
  lift (new_each Comment data).

Definition ProfilesClient_get_by_address (address : string)
  : IO (record Profile) :=
  data <- GammaClient__request "GET" ("/profiles/" ++ address) None ;;
  lift (new Profile data).

(** *** GammaClient: the convenience methods *)

Definition GammaClient_get_status : IO pyvalue :=
  GammaClient__request "GET" "/status" None.

Definition GammaClient_search (query : string) (params : pydict) : IO pyvalue :=
  params <- lift (bind_keywords ["self"; "query"] params) ;;
  let params := dict_set "q" (PyStr query) params in
  GammaClient__request "GET" "/search" (Some params).

Definition GammaClient__extract_slug_from_url (url : string) : option string :=
  match urlparse url with
  | inr parsed =>
      let path_parts := split slash (strip "/" (path parsed)) in
      if (2 <=? length path_parts)%nat
         && existsb (String.eqb (hd EmptyString path_parts)) ["market"; "event"]
      then Some (last path_parts EmptyString)
      else None
  | inl _ => None
  end.

(** [not slug] holds of [None] and of the empty string.  A [try] whose
    body returns and whose handler is [pass] leaves the rest of the
    method to run when the body raises. *)
Definition GammaClient_resolve_url (url : string)
  : IO (option (record Market + record Event)) :=
  match GammaClient__extract_slug_from_url url with
  | Some (String _ _ as slug) =>
      catch
        (found <- MarketsClient_get_by_slug slug ;;
         ret (option_map inl found))
        (fun _ =>
           catch
             (found <- EventsClient_get_by_slug slug ;;
              ret (Some (inr found)))
             (fun _ => ret None))
  | _ => raise (ValidationError ("Invalid Polymarket URL: " ++ url))
  end.

(** *** The constructors *)

(** [BASE_URL] and [DEFAULT_TIMEOUT] of [constants.py], which is not among
    the sources. *)
Variable BASE_URL : string.
Variable DEFAULT_TIMEOUT : Z.

(** What [__init__] stores in the client besides the HTTP client, which
    is built from these two values, and the sub-clients, which hold the
    client. *)
Record ClientConfig : Type := mkClientConfig {
  base_url : string;
  timeout : Z
}.

(** An argument left out takes its default. *)
Definition GammaClient___init__ (base_url : option string) (timeout : option Z)
  : ClientConfig :=
  let base_url := match base_url with Some u => u | None => BASE_URL end in
  let timeout := match timeout with Some t => t | None => DEFAULT_TIMEOUT end in
  mkClientConfig (rstrip "/" base_url) timeout.

Definition AsyncGammaClient___init__ (base_url : option string)
    (timeout : option Z) : ClientConfig :=
  let base_url := match base_url with Some u => u | None => BASE_URL end in
  let timeout := match timeout with Some t => t | None => DEFAULT_TIMEOUT end in
  mkClientConfig (rstrip "/" base_url) timeout.

(** *** AsyncGammaClient: the transport *)

(** [await self._http_client.request(method, endpoint, **kwargs)] of the
    non-blocking client: the coroutine is suspended on the call and
    resumes with what it comes to.  In a coroutine [x <- c ;; k] is
    [x = await c] followed by [k]. *)
Definition AsyncClient_request (req : Request) : coro Response :=
  Await req (fun o =>
    match o with
    | Responded r => Done r
    | Failed cls msg => Throw (PyError cls msg)
    end).

(** The event loop, for one caller: each call the coroutine is suspended
    on is logged and answered by the transport, until the coroutine
    returns or raises. *)
Fixpoint run_until_complete {A : Type} (c : coro A) (log : list Request)
  : result A * list Request :=
  match c with
  | Done a => (Ok a, log)
  | Throw e => (Raise e, log)
  | Await req k => run_until_complete (k (transport log req)) (log ++ [req])%list
  end.

Definition AsyncGammaClient__request (method endpoint : string)
    (kwargs : option pydict) : coro pyvalue :=
  catch
    (response <- AsyncClient_request (mkRequest method endpoint kwargs) ;;
     if (status_code response =? 404)%Z then
       raise (NotFoundError ("Resource not found: " ++ endpoint) (Some 404%Z))
     else
       lift (raise_for_status response) ;;
       let content_type := headers_get_content_type response in
       if contains "application/json" content_type then
         lift (response_json response)
       else
         ret (PyStr (strip (String dquote EmptyString) (text response))))
    (fun e =>
       match e with
       | HTTPStatusError _ r =>
           raise (GammaAPIError ("API Error: " ++ exn_str e)
                                (Some (status_code r)) (Some (text r)))
       | _ =>
           if is_GammaError e then raise e
           else raise (GammaAPIError ("Unexpected Error: " ++ exn_str e) None None)
       end).

(** *** The non-blocking sub-clients *)

Definition AsyncSportsClient_list_teams (params : pydict) : coro (list (record Team)) :=
  params <- lift (bind_keywords ["self"] params) ;;
  data <- AsyncGammaClient__request "GET" "/teams" (Some params) ;;
  lift (new_each Team data).

Definition AsyncSportsClient_get_metadata : coro (list (record SportMetadata)) :=
  data <- AsyncGammaClient__request "GET" "/sports" None ;;
  lift (new_each SportMetadata data).

Definition AsyncSportsClient_get_market_types : coro pyvalue :=
  data <- AsyncGammaClient__request "GET" "/sports/market-types" None ;;
  lift (py_get data "marketTypes" (PyList [])).

Definition AsyncTagsClient_list (params : pydict) : coro (list (record Tag)) :=
  params <- lift (bind_keywords ["self"] params) ;;
  data <- AsyncGammaClient__request "GET" "/tags" (Some params) ;;
  lift (new_each Tag data).

Definition AsyncTagsClient_get_by_id (tag_id : string) : coro (record Tag) :=
  data <- AsyncGammaClient__request "GET" ("/tags/" ++ tag_id) None ;;
  lift (new Tag data).

Definition AsyncTagsClient_get_by_slug (slug : string) : coro (record Tag) :=
  data <- AsyncGammaClient__request "GET" ("/tags/slug/" ++ slug) None ;;
  lift (new Tag data).

Definition AsyncTagsClient_get_related_by_id (tag_id : string) : coro pyvalue :=
  AsyncGammaClient__request "GET" ("/tags-related-tag-id/" ++ tag_id) None.

Definition AsyncTagsClient_get_related_by_slug (slug : string) : coro pyvalue :=
  AsyncGammaClient__request "GET" ("/tags-related-tag-slug/" ++ slug) None.

Definition AsyncTagsClient_get_tags_related_to_id (tag_id : string)
  : coro (list (record Tag)) :=
  data <- AsyncGammaClient__request "GET" ("/tags/" ++ tag_id ++ "/related") None ;;
  lift (new_each Tag data).

Definition AsyncTagsClient_get_tags_related_to_slug (slug : string)
  : coro (list (record Tag)) :=
  data <- AsyncGammaClient__request "GET" ("/tags/slug/" ++ slug ++ "/related") None ;;
  lift (new_each Tag data).

Definition AsyncEventsClient_list (params : pydict) : coro (list (record Event)) :=
  params <- lift (bind_keywords ["self"] params) ;;
  data <- AsyncGammaClient__request "GET" "/events" (Some params) ;;
  lift (new_each Event data).

Definition AsyncEventsClient_get_by_id (event_id : string) : coro (record Event) :=
  data <- AsyncGammaClient__request "GET" ("/events/" ++ event_id) None ;;
  lift (new Event data).

Definition AsyncEventsClient_get_tags (event_id : string) : coro (list (record Tag)) :=
  data <- AsyncGammaClient__request "GET" ("/events/" ++ event_id ++ "/tags") None ;;
  lift (new_each Tag data).

Definition AsyncEventsClient_get_by_slug (slug : string) : coro (record Event) :=
  data <- AsyncGammaClient__request "GET" ("/events/slug/" ++ slug) None ;;
  lift (new Event data).

Definition AsyncMarketsClient_list (params : pydict) : coro (list (record Market)) :=
  params <- lift (bind_keywords ["self"] params) ;;
  data <- AsyncGammaClient__request "GET" "/markets" (Some params) ;;
  lift (new_each Market data).

Definition AsyncMarketsClient_get_by_id (market_id : string) : coro (record Market) :=
  data <- AsyncGammaClient__request "GET" ("/markets/" ++ market_id) None ;;
  lift (new Market data).

Definition AsyncMarketsClient_get_tags (market_id : string) : coro (list (record Tag)) :=
  data <- AsyncGammaClient__request "GET" ("/markets/" ++ market_id ++ "/tags") None ;;
  lift (new_each Tag data).

Definition AsyncMarketsClient_get_by_slug (slug : string)
  : coro (option (record Market)) :=
  data <- AsyncGammaClient__request "GET" ("/markets/slug/" ++ slug) None ;;
  match data with
  | PyList items =>
      match items with
      | item0 :: _ => market <- lift (new Market item0) ;; ret (Some market)
      | [] => ret None
      end
  | _ => market <- lift (new Market data) ;; ret (Some market)
  end.

Definition AsyncSeriesClient_list (params : pydict) : coro (list (record Series)) :=
  params <- lift (bind_keywords ["self"] params) ;;
  data <- AsyncGammaClient__request "GET" "/series" (Some params) ;;
  lift (new_each Series data).

Definition AsyncSeriesClient_get_by_id (series_id : string) : coro (record Series) :=
  data <- AsyncGammaClient__request "GET" ("/series/" ++ series_id) None ;;
  lift (new Series data).

Definition AsyncCommentsClient_list (params : pydict) : coro (list (record Comment)) :=
  params <- lift (bind_keywords ["self"] params) ;;
  data <- AsyncGammaClient__request "GET" "/comments" (Some params) ;;
  lift (new_each Comment data).

Definition AsyncCommentsClient_get_by_id (comment_id : string) : coro (record Comment) :=
  data <- AsyncGammaClient__request "GET" ("/comments/" ++ comment_id) None ;;
  lift (new Comment data).

Definition AsyncCommentsClient_get_by_user (address : string)
  : coro (list (record Comment)) :=
  data <- AsyncGammaClient__request "GET" ("/comments/user/" ++ address) None ;;
  lift (new_each Comment data).

Definition AsyncProfilesClient_get_by_address (address : string)
  : coro (record Profile) :=
  data <- AsyncGammaClient__request "GET" ("/profiles/" ++ address) None ;;
  lift (new Profile data).

(** *** AsyncGammaClient: the convenience methods *)

Definition AsyncGammaClient_get_status : coro pyvalue :=
  AsyncGammaClient__request "GET" "/status" None.

Definition AsyncGammaClient_search (query : string) (params : pydict) : coro pyvalue :=
  params <- lift (bind_keywords ["self"; "query"] params) ;;
  let params := dict_set "q" (PyStr query) params in
  AsyncGammaClient__request "GET" "/search" (Some params).

Definition AsyncGammaClient__extract_slug_from_url (url : string) : option string :=
  match urlparse url with
  | inr parsed =>
      let path_parts := split slash (strip "/" (path parsed)) in
      if (2 <=? length path_parts)%nat
         && existsb (String.eqb (hd EmptyString path_parts)) ["market"; "event"]
      then Some (last path_parts EmptyString)
      else None
  | inl _ => None
  end.

Definition AsyncGammaClient_resolve_url (url : string)
  : coro (option (record Market + record Event)) :=
  match AsyncGammaClient__extract_slug_from_url url with
  | Some (String _ _ as slug) =>
      catch
        (found <- AsyncMarketsClient_get_by_slug slug ;;
         ret (option_map inl found))
        (fun _ =>
           catch
             (found <- AsyncEventsClient_get_by_slug slug ;;
              ret (Some (inr found)))
             (fun _ => ret None))
  | _ => raise (ValidationError ("Invalid Polymarket URL: " ++ url))
  end.

(* =================================================================== *)
(** ** Strings: what [strip] and [split] guarantee *)
(* =================================================================== *)

Lemma last_char_cons (c : ascii) (s : string) :
  s <> EmptyString -> last_char (String c s) = last_char s.
Proof. destruct s; [congruence | reflexivity]. Qed.

Lemma last_char_none (s : string) : last_char s = None -> s = EmptyString.
Proof.
  induction s as [| c s IH]; [reflexivity |].
  destruct s as [| d s']; [discriminate |].
  intros H. rewrite last_char_cons in H by discriminate.
  specialize (IH H). discriminate.
Qed.

(** What [rstrip] leaves does not end with a stripped character. *)
Lemma rstrip_last_char (chars s : string) (c : ascii) :
  last_char (rstrip chars s) = Some c -> in_chars c chars = false.
Proof.
  induction s as [| a s IH]; simpl; [discriminate |].
  destruct (rstrip chars s) as [| b r] eqn:E.
  - destruct (in_chars a chars) eqn:Ea; simpl; [discriminate |].
    intros H; inversion H; subst; assumption.
  - intros H. rewrite last_char_cons in H by discriminate. auto.
Qed.

(** [rstrip] removes nothing at the front of what it leaves. *)
Lemma rstrip_first_char (chars s : string) (c : ascii) :
  first_char (rstrip chars s) = Some c -> first_char s = Some c.
Proof.
  destruct s as [| a s]; simpl; [discriminate |].
  destruct (rstrip chars s); [destruct (in_chars a chars) |]; simpl;
    congruence.
Qed.

Lemma lstrip_first_char (chars s : string) (c : ascii) :
  first_char (lstrip chars s) = Some c -> in_chars c chars = false.
Proof.
  induction s as [| a s IH]; simpl; [discriminate |].
  destruct (in_chars a chars) eqn:Ea; [assumption |].
  simpl. intros H; inversion H; subst; assumption.
Qed.

Lemma strip_first_char (chars s : string) (c : ascii) :
  first_char (strip chars s) = Some c -> in_chars c chars = false.
Proof.
  unfold strip. intros H. apply rstrip_first_char in H.
  eapply lstrip_first_char; eassumption.
Qed.

Lemma strip_last_char (chars s : string) (c : ascii) :
  last_char (strip chars s) = Some c -> in_chars c chars = false.
Proof. unfold strip. apply rstrip_last_char. Qed.

(** [lstrip] and [rstrip] only remove stripped characters. *)
Lemma lstrip_decompose (chars s : string) :
  exists l, s = l ++ lstrip chars s /\ all_in chars l = true.
Proof.
  induction s as [| a s [l [Hs Hl]]]; simpl.
  - exists EmptyString. split; reflexivity.
  - destruct (in_chars a chars) eqn:Ea.
    + exists (String a l). split.
      * simpl. f_equal. assumption.
      * unfold all_in in *. simpl. rewrite Ea. assumption.
    + exists EmptyString. split; reflexivity.
Qed.

Lemma rstrip_decompose (chars s : string) :
  exists r, s = rstrip chars s ++ r /\ all_in chars r = true.
Proof.
  induction s as [| a s [r [Hs Hr]]]; simpl.
  - exists EmptyString. split; reflexivity.
  - destruct (rstrip chars s) as [| b t] eqn:E.
    + simpl in Hs. destruct (in_chars a chars) eqn:Ea.
      * exists (String a r). split.
        -- simpl. f_equal. assumption.
        -- unfold all_in in *. simpl. rewrite Ea. assumption.
      * exists r. split; [simpl; f_equal; assumption | assumption].
    + exists r. split; [| assumption].
      change (String a (String b t) ++ r) with (String a (String b t ++ r)).
      f_equal. assumption.
Qed.

Lemma strip_decompose (chars s : string) :
  exists l r, s = l ++ strip chars s ++ r
              /\ all_in chars l = true /\ all_in chars r = true.
Proof.
  destruct (lstrip_decompose chars s) as [l [Hl Al]].
  destruct (rstrip_decompose chars (lstrip chars s)) as [r [Hr Ar]].
  exists l, r. unfold strip. rewrite <- Hr. auto.
Qed.

Lemma split_nonempty (sep : ascii) (s : string) : split sep s <> [].
Proof.
  destruct s as [| c s]; simpl; [discriminate |].
  destruct (Ascii.eqb c sep); [discriminate |].
  destruct (split sep s); discriminate.
Qed.

(** The last part of a split is empty only when the string is empty or
    ends with the separator. *)
Lemma split_last_empty (sep : ascii) (s : string) :
  last (split sep s) EmptyString = EmptyString ->
  s = EmptyString \/ last_char s = Some sep.
Proof.
  induction s as [| c s IH]; [left; reflexivity |].
  intros H. right. simpl in H.
  destruct (Ascii.eqb_spec c sep) as [-> | Hne].
  - pose proof (split_nonempty sep s) as Hs.
    destruct (split sep s) as [| w ws] eqn:E; [congruence |].
    change (last (w :: ws) EmptyString = EmptyString) in H.
    destruct (IH H) as [-> | Hl]; [reflexivity |].
    rewrite last_char_cons; [assumption |].
    intros ->. discriminate.
  - destruct (split sep s) as [| w ws] eqn:E; [discriminate |].
    destruct ws as [| w' ws]; [discriminate |].
    change (last (w' :: ws) EmptyString = EmptyString) in H.
    assert (Hl : last (w :: w' :: ws) EmptyString = EmptyString) by exact H.
    destruct (IH Hl) as [-> | Hl']; [discriminate |].
    rewrite last_char_cons; [assumption |].
    intros ->. discriminate.
Qed.

(** With the surrounding separators stripped, no part at either end of
    the split is empty, unless it is the only one. *)
Lemma split_strip_last (s : string) :
  (2 <= length (split slash (strip "/" s)))%nat ->
  last (split slash (strip "/" s)) EmptyString <> EmptyString.
Proof.
  intros Hlen Hlast.
  destruct (split_last_empty _ _ Hlast) as [E | E].
  - rewrite E in Hlen. simpl in Hlen. lia.
  - apply strip_last_char in E. discriminate.
Qed.

(* =================================================================== *)
(** ** The event loop against the blocking monad *)
(* =================================================================== *)

Lemma IO_bind_ext {A B : Type} (c c' : IO A) (f f' : A -> IO B) :
  (forall log, c log = c' log) ->
  (forall a log, f a log = f' a log) ->
  forall log, bind c f log = bind c' f' log.
Proof.
  intros Hc Hf log. simpl. rewrite Hc.
  destruct (c' log) as [[a | e] log']; [apply Hf | reflexivity].
Qed.

Lemma IO_catch_ext {A : Type} (c c' : IO A) (h h' : exn -> IO A) :
  (forall log, c log = c' log) ->
  (forall e log, h e log = h' e log) ->
  forall log, catch c h log = catch c' h' log.
Proof.
  intros Hc Hh log. simpl. rewrite Hc.
  destruct (c' log) as [[a | e] log']; [reflexivity | apply Hh].
Qed.

(** Running a sequence of two coroutines is running one after the
    other. *)
Lemma run_bind {A B : Type} (c : coro A) (f : A -> coro B) :
  forall log,
    run_until_complete (bind c f) log
    = @bind IO _ _ _ (run_until_complete c)
            (fun a => run_until_complete (f a)) log.
Proof.
  induction c as [a | e | req k IH]; intros log; simpl; try reflexivity.
  apply IH.
Qed.

(** An exception raised in a coroutine reaches the handler where the
    blocking code would have reached it. *)
Lemma run_catch {A : Type} (c : coro A) (h : exn -> coro A) :
  forall log,
    run_until_complete (catch c h) log
    = @catch exn IO _ _ (run_until_complete c)
             (fun e => run_until_complete (h e)) log.
Proof.
  induction c as [a | e | req k IH]; intros log; simpl; try reflexivity.
  apply IH.
Qed.

Lemma run_lift {A : Type} (r : result A) :
  forall log, run_until_complete (lift r) log = lift (m:=IO) r log.
Proof. destruct r; reflexivity. Qed.

Lemma run_AsyncClient_request (req : Request) :
  forall log,
    run_until_complete (AsyncClient_request req) log = Client_request req log.
Proof.
  intros log. unfold Client_request. simpl.
  destruct (transport log req); reflexivity.
Qed.

(** One step of the comparison of a coroutine with its blocking
    counterpart, by the shape of the code. *)
Ltac run_step :=
  lazymatch goal with
  | |- run_until_complete (bind _ _) _ = bind _ _ _ =>
      rewrite run_bind; apply IO_bind_ext; intros
  | |- run_until_complete (catch _ _) _ = catch _ _ _ =>
      rewrite run_catch; apply IO_catch_ext; intros
  | |- run_until_complete (lift _) _ = _ => apply run_lift
  | |- run_until_complete (AsyncClient_request _) _ = _ =>
      apply run_AsyncClient_request
  | |- run_until_complete (if ?b then _ else _) _ = _ => destruct b
  | |- run_until_complete (match ?x with _ => _ end) _ = _ => destruct x
  | |- _ => reflexivity
  end.

Lemma run_AsyncGammaClient__request (method endpoint : string)
    (kwargs : option pydict) :
  forall log,
    run_until_complete (AsyncGammaClient__request method endpoint kwargs) log
    = GammaClient__request method endpoint kwargs log.
Proof.
  intros log. unfold AsyncGammaClient__request, GammaClient__request.
  repeat run_step.
Qed.

(** The same step, with the transport of the client already compared. *)
Ltac run_method :=
  lazymatch goal with
  | |- run_until_complete (AsyncGammaClient__request _ _ _) _ = _ =>
      apply run_AsyncGammaClient__request
  | |- _ => run_step
  end.

(** *** Every method of the non-blocking client, run to completion, is
    the method of the blocking client *)

Create HintDb async_run.

Lemma run_AsyncSportsClient_list_teams (params : pydict) :
  forall log,
    run_until_complete (AsyncSportsClient_list_teams params) log = SportsClient_list_teams params log.
Proof. intros log. unfold AsyncSportsClient_list_teams, SportsClient_list_teams. repeat run_method. Qed.

Lemma run_AsyncSportsClient_get_metadata :
  forall log,
    run_until_complete (AsyncSportsClient_get_metadata) log = SportsClient_get_metadata log.
Proof. intros log. unfold AsyncSportsClient_get_metadata, SportsClient_get_metadata. repeat run_method. Qed.

Lemma run_AsyncSportsClient_get_market_types :
  forall log,
    run_until_complete (AsyncSportsClient_get_market_types) log = SportsClient_get_market_types log.
Proof. intros log. unfold AsyncSportsClient_get_market_types, SportsClient_get_market_types. repeat run_method. Qed.

Lemma run_AsyncTagsClient_list (params : pydict) :
  forall log,
    run_until_complete (AsyncTagsClient_list params) log = TagsClient_list params log.
Proof. intros log. unfold AsyncTagsClient_list, TagsClient_list. repeat run_method. Qed.

Lemma run_AsyncTagsClient_get_by_id (tag_id : string) :
  forall log,
    run_until_complete (AsyncTagsClient_get_by_id tag_id) log = TagsClient_get_by_id tag_id log.
Proof. intros log. unfold AsyncTagsClient_get_by_id, TagsClient_get_by_id. repeat run_method. Qed.

Lemma run_AsyncTagsClient_get_by_slug (slug : string) :
  forall log,
    run_until_complete (AsyncTagsClient_get_by_slug slug) log = TagsClient_get_by_slug slug log.
Proof. intros log. unfold AsyncTagsClient_get_by_slug, TagsClient_get_by_slug. repeat run_method. Qed.

Lemma run_AsyncTagsClient_get_related_by_id (tag_id : string) :
  forall log,
    run_until_complete (AsyncTagsClient_get_related_by_id tag_id) log = TagsClient_get_related_by_id tag_id log.
Proof. intros log. unfold AsyncTagsClient_get_related_by_id, TagsClient_get_related_by_id. repeat run_method. Qed.

Lemma run_AsyncTagsClient_get_related_by_slug (slug : string) :
  forall log,
    run_until_complete (AsyncTagsClient_get_related_by_slug slug) log = TagsClient_get_related_by_slug slug log.
Proof. intros log. unfold AsyncTagsClient_get_related_by_slug, TagsClient_get_related_by_slug. repeat run_method. Qed.

Lemma run_AsyncTagsClient_get_tags_related_to_id (tag_id : string) :
  forall log,
    run_until_complete (AsyncTagsClient_get_tags_related_to_id tag_id) log = TagsClient_get_tags_related_to_id tag_id log.
Proof. intros log. unfold AsyncTagsClient_get_tags_related_to_id, TagsClient_get_tags_related_to_id. repeat run_method. Qed.

Lemma run_AsyncTagsClient_get_tags_related_to_slug (slug : string) :
  forall log,
    run_until_complete (AsyncTagsClient_get_tags_related_to_slug slug) log = TagsClient_get_tags_related_to_slug slug log.
Proof. intros log. unfold AsyncTagsClient_get_tags_related_to_slug, TagsClient_get_tags_related_to_slug. repeat run_method. Qed.

Lemma run_AsyncEventsClient_list (params : pydict) :
  forall log,
    run_until_complete (AsyncEventsClient_list params) log = EventsClient_list params log.
Proof. intros log. unfold AsyncEventsClient_list, EventsClient_list. repeat run_method. Qed.

Lemma run_AsyncEventsClient_get_by_id (event_id : string) :
  forall log,
    run_until_complete (AsyncEventsClient_get_by_id event_id) log = EventsClient_get_by_id event_id log.
Proof. intros log. unfold AsyncEventsClient_get_by_id, EventsClient_get_by_id. repeat run_method. Qed.

Lemma run_AsyncEventsClient_get_tags (event_id : string) :
  forall log,
    run_until_complete (AsyncEventsClient_get_tags event_id) log = EventsClient_get_tags event_id log.
Proof. intros log. unfold AsyncEventsClient_get_tags, EventsClient_get_tags. repeat run_method. Qed.

Lemma run_AsyncEventsClient_get_by_slug (slug : string) :
  forall log,
    run_until_complete (AsyncEventsClient_get_by_slug slug) log = EventsClient_get_by_slug slug log.
Proof. intros log. unfold AsyncEventsClient_get_by_slug, EventsClient_get_by_slug. repeat run_method. Qed.

Lemma run_AsyncMarketsClient_list (params : pydict) :
  forall log,
    run_until_complete (AsyncMarketsClient_list params) log = MarketsClient_list params log.
Proof. intros log. unfold AsyncMarketsClient_list, MarketsClient_list. repeat run_method. Qed.

Lemma run_AsyncMarketsClient_get_by_id (market_id : string) :
  forall log,
    run_until_complete (AsyncMarketsClient_get_by_id market_id) log = MarketsClient_get_by_id market_id log.
Proof. intros log. unfold AsyncMarketsClient_get_by_id, MarketsClient_get_by_id. repeat run_method. Qed.

Lemma run_AsyncMarketsClient_get_tags (market_id : string) :
  forall log,
    run_until_complete (AsyncMarketsClient_get_tags market_id) log = MarketsClient_get_tags market_id log.
Proof. intros log. unfold AsyncMarketsClient_get_tags, MarketsClient_get_tags. repeat run_method. Qed.

Lemma run_AsyncMarketsClient_get_by_slug (slug : string) :
  forall log,
    run_until_complete (AsyncMarketsClient_get_by_slug slug) log = MarketsClient_get_by_slug slug log.
Proof. intros log. unfold AsyncMarketsClient_get_by_slug, MarketsClient_get_by_slug. repeat run_method. Qed.

Lemma run_AsyncSeriesClient_list (params : pydict) :
  forall log,
    run_until_complete (AsyncSeriesClient_list params) log = SeriesClient_list params log.
Proof. intros log. unfold AsyncSeriesClient_list, SeriesClient_list. repeat run_method. Qed.

Lemma run_AsyncSeriesClient_get_by_id (series_id : string) :
  forall log,
    run_until_complete (AsyncSeriesClient_get_by_id series_id) log = SeriesClient_get_by_id series_id log.
Proof. intros log. unfold AsyncSeriesClient_get_by_id, SeriesClient_get_by_id. repeat run_method. Qed.

Lemma run_AsyncCommentsClient_list (params : pydict) :
  forall log,
    run_until_complete (AsyncCommentsClient_list params) log = CommentsClient_list params log.
Proof. intros log. unfold AsyncCommentsClient_list, CommentsClient_list. repeat run_method. Qed.

Lemma run_AsyncCommentsClient_get_by_id (comment_id : string) :
  forall log,
    run_until_complete (AsyncCommentsClient_get_by_id comment_id) log = CommentsClient_get_by_id comment_id log.
Proof. intros log. unfold AsyncCommentsClient_get_by_id, CommentsClient_get_by_id. repeat run_method. Qed.

Lemma run_AsyncCommentsClient_get_by_user (address : string) :
  forall log,
    run_until_complete (AsyncCommentsClient_get_by_user address) log = CommentsClient_get_by_user address log.
Proof. intros log. unfold AsyncCommentsClient_get_by_user, CommentsClient_get_by_user. repeat run_method. Qed.

Lemma run_AsyncProfilesClient_get_by_address (address : string) :
  forall log,
    run_until_complete (AsyncProfilesClient_get_by_address address) log = ProfilesClient_get_by_address address log.
Proof. intros log. unfold AsyncProfilesClient_get_by_address, ProfilesClient_get_by_address. repeat run_method. Qed.

Lemma run_AsyncGammaClient_get_status :
  forall log,
    run_until_complete (AsyncGammaClient_get_status) log = GammaClient_get_status log.
Proof. intros log. unfold AsyncGammaClient_get_status, GammaClient_get_status. repeat run_method. Qed.

Lemma run_AsyncGammaClient_search (query : string) (params : pydict) :
  forall log,
    run_until_complete (AsyncGammaClient_search query params) log = GammaClient_search query params log.
Proof. intros log. unfold AsyncGammaClient_search, GammaClient_search. repeat run_method. Qed.

Lemma AsyncGammaClient__extract_slug_from_url_eq (url : string) :
  AsyncGammaClient__extract_slug_from_url url
  = GammaClient__extract_slug_from_url url.
Proof. reflexivity. Qed.

Lemma run_AsyncGammaClient_resolve_url (url : string) :
  forall log,
    run_until_complete (AsyncGammaClient_resolve_url url) log
    = GammaClient_resolve_url url log.
Proof.
  intros log. unfold AsyncGammaClient_resolve_url, GammaClient_resolve_url.
  rewrite AsyncGammaClient__extract_slug_from_url_eq.
  destruct (GammaClient__extract_slug_from_url url) as [[| c slug] |];
    try reflexivity.
  rewrite run_catch; apply IO_catch_ext; intros.
  - rewrite run_bind; apply IO_bind_ext; intros;
      [apply run_AsyncMarketsClient_get_by_slug | reflexivity].
  - rewrite run_catch; apply IO_catch_ext; intros; [| reflexivity].
    rewrite run_bind; apply IO_bind_ext; intros;
      [apply run_AsyncEventsClient_get_by_slug | reflexivity].
Qed.

(* =================================================================== *)
(** ** The transport, case by case *)
(* =================================================================== *)

Section Transport.

Variables (method endpoint : string) (kwargs : option pydict).
Variable log : list Request.

Let req : Request := mkRequest method endpoint kwargs.

(** One call of [_request] is one call of the HTTP client. *)
Lemma request_log :
  snd (GammaClient__request method endpoint kwargs log) = (log ++ [req])%list.
Proof.
  unfold GammaClient__request, Client_request. simpl.
  destruct (transport log _) as [r | cls msg]; simpl; [| reflexivity].
  destruct (status_code r =? 404)%Z; simpl; [reflexivity |].
  unfold raise_for_status. destruct (is_success r); simpl; [| reflexivity].
  destruct (contains _ _); simpl; [| reflexivity].
  unfold response_json. destruct (json_loads _); reflexivity.
Qed.

Lemma request_failed (cls msg : string) :
  transport log req = Failed cls msg ->
  GammaClient__request method endpoint kwargs log
  = (Raise (GammaAPIError ("Unexpected Error: " ++ msg) None None),
     (log ++ [req])%list).
Proof.
  intros H. unfold GammaClient__request, Client_request. simpl.
  fold req. rewrite H. reflexivity.
Qed.

Lemma request_not_found (r : Response) :
  transport log req = Responded r ->
  status_code r = 404%Z ->
  GammaClient__request method endpoint kwargs log
  = (Raise (NotFoundError ("Resource not found: " ++ endpoint) (Some 404%Z)),
     (log ++ [req])%list).
Proof.
  intros H H404. unfold GammaClient__request, Client_request. simpl.
  fold req. rewrite H. simpl. rewrite H404. reflexivity.
Qed.

Lemma request_status_error (r : Response) :
  transport log req = Responded r ->
  status_code r <> 404%Z ->
  is_success r = false ->
  GammaClient__request method endpoint kwargs log
  = (Raise (GammaAPIError ("API Error: " ++ status_message r)
                          (Some (status_code r)) (Some (text r))),
     (log ++ [req])%list).
Proof.
  intros H H404 Hs. unfold GammaClient__request, Client_request. simpl.
  fold req. rewrite H. simpl.
  destruct (Z.eqb_spec (status_code r) 404); [contradiction |]. simpl.
  unfold raise_for_status. rewrite Hs. reflexivity.
Qed.

Lemma success_not_404 (r : Response) :
  is_success r = true -> (status_code r =? 404)%Z = false.
Proof.
  unfold is_success. intros H. apply andb_prop in H as [_ H].
  apply Z.leb_le in H. apply Z.eqb_neq. lia.
Qed.

Lemma request_json (r : Response) (v : pyvalue) :
  transport log req = Responded r ->
  is_success r = true ->
  contains "application/json" (headers_get_content_type r) = true ->
  json_loads (text r) = inr v ->
  GammaClient__request method endpoint kwargs log
  = (Ok v, (log ++ [req])%list).
Proof.
  intros H Hs Hc Hj. unfold GammaClient__request, Client_request. simpl.
  fold req. rewrite H. simpl. rewrite (success_not_404 _ Hs). simpl.
  unfold raise_for_status. rewrite Hs. simpl. rewrite Hc.
  unfold response_json. rewrite Hj. reflexivity.
Qed.

Lemma request_json_malformed (r : Response) (msg : string) :
  transport log req = Responded r ->
  is_success r = true ->
  contains "application/json" (headers_get_content_type r) = true ->
  json_loads (text r) = inl msg ->
  GammaClient__request method endpoint kwargs log
  = (Raise (GammaAPIError ("Unexpected Error: " ++ msg) None None),
     (log ++ [req])%list).
Proof.
  intros H Hs Hc Hj. unfold GammaClient__request, Client_request. simpl.
  fold req. rewrite H. simpl. rewrite (success_not_404 _ Hs). simpl.
  unfold raise_for_status. rewrite Hs. simpl. rewrite Hc.
  unfold response_json. rewrite Hj. reflexivity.
Qed.

Lemma request_text (r : Response) :
  transport log req = Responded r ->
  is_success r = true ->
  contains "application/json" (headers_get_content_type r) = false ->
  GammaClient__request method endpoint kwargs log
  = (Ok (PyStr (strip (String dquote EmptyString) (text r))),
     (log ++ [req])%list).
Proof.
  intros H Hs Hc. unfold GammaClient__request, Client_request. simpl.
  fold req. rewrite H. simpl. rewrite (success_not_404 _ Hs). simpl.
  unfold raise_for_status. rewrite Hs. simpl. rewrite Hc. reflexivity.
Qed.

(** Whatever [_request] raises is an error of the SDK. *)
Lemma request_raises_GammaError (e : exn) :
  fst (GammaClient__request method endpoint kwargs log) = Raise e ->
  is_GammaError e = true.
Proof.
  unfold GammaClient__request, Client_request. simpl. fold req.
  destruct (transport log req) as [r | cls msg]; simpl.
  - destruct (status_code r =? 404)%Z; simpl.
    + intros H; inversion H; reflexivity.
    + unfold raise_for_status. destruct (is_success r); simpl.
      * destruct (contains _ _); simpl; [| discriminate].
        unfold response_json. destruct (json_loads _); simpl;
          intros H; inversion H; reflexivity.
      * intros H; inversion H; reflexivity.
  - intros H; inversion H; reflexivity.
Qed.

(** [_request] returns only what a successful response holds. *)
Lemma request_returns (v : pyvalue) :
  fst (GammaClient__request method endpoint kwargs log) = Ok v ->
  exists r,
    transport log req = Responded r /\ is_success r = true /\
    if contains "application/json" (headers_get_content_type r)
    then json_loads (text r) = inr v
    else v = PyStr (strip (String dquote EmptyString) (text r)).
Proof.
  unfold GammaClient__request, Client_request. simpl. fold req.
  destruct (transport log req) as [r | cls msg]; simpl; [| discriminate].
  destruct (status_code r =? 404)%Z; simpl; [discriminate |].
  unfold raise_for_status. destruct (is_success r) eqn:Hs; simpl;
    [| discriminate].
  intros H. exists r. split; [reflexivity | split; [exact Hs |]].
  destruct (contains _ _); simpl in H.
  - unfold response_json in H. destruct (json_loads _); simpl in H;
      [discriminate | inversion H; reflexivity].
  - inversion H; reflexivity.
Qed.

(** [NotFoundError] comes from status 404 and from nothing else. *)
Lemma request_NotFoundError_iff :
  (exists e, fst (GammaClient__request method endpoint kwargs log) = Raise e
             /\ is_NotFoundError e = true)
  <-> (exists r, transport log req = Responded r /\ status_code r = 404%Z).
Proof.
  split.
  - intros [e [He Hn]]. revert He.
    unfold GammaClient__request, Client_request. simpl. fold req.
    destruct (transport log req) as [r | cls msg]; simpl.
    + destruct (Z.eqb_spec (status_code r) 404); simpl.
      * intros _. exists r. auto.
      * unfold raise_for_status. destruct (is_success r); simpl.
        -- destruct (contains _ _); simpl; [| discriminate].
           unfold response_json. destruct (json_loads _); simpl;
             intros H; inversion H; subst; discriminate.
        -- intros H; inversion H; subst; discriminate.
    + intros H; inversion H; subst; discriminate.
  - intros [r [Hr H404]]. eexists. rewrite (request_not_found r Hr H404).
    split; reflexivity.
Qed.

End Transport.

(* =================================================================== *)
(** ** Dicts and lookups by slug *)
(* =================================================================== *)

Lemma dict_lookup_set_same (key : string) (v : pyvalue) (d : pydict) :
  dict_lookup key (dict_set key v d) = Some v.
Proof.
  induction d as [| [k w] d IH]; simpl.
  - rewrite String.eqb_refl. reflexivity.
  - destruct (String.eqb k key) eqn:E; simpl; rewrite E; auto.
Qed.

Lemma dict_lookup_set_other (key k' : string) (v : pyvalue) (d : pydict) :
  k' <> key -> dict_lookup k' (dict_set key v d) = dict_lookup k' d.
Proof.
  intros Hne. induction d as [| [k w] d IH]; simpl.
  - destruct (String.eqb_spec key k'); [congruence | reflexivity].
  - destruct (String.eqb_spec k key) as [-> | Hk]; simpl.
    + destruct (String.eqb_spec key k'); [congruence | reflexivity].
    + rewrite IH. reflexivity.
Qed.

(** Decoding the data of a response makes no call. *)
Lemma bind_lift_log {A B : Type} (c : IO A) (g : A -> result B)
    (log : list Request) :
  snd ((x <- c ;; lift (g x)) log) = snd (c log).
Proof.
  simpl. destruct (c log) as [[a | e] log']; [| reflexivity].
  destruct (g a); reflexivity.
Qed.

Lemma MarketsClient_get_by_slug_log (slug : string) (log : list Request) :
  snd (MarketsClient_get_by_slug slug log)
  = (log ++ [mkRequest "GET" ("/markets/slug/" ++ slug) None])%list.
Proof.
  rewrite <- request_log. unfold MarketsClient_get_by_slug. simpl.
  destruct (GammaClient__request _ _ _ log) as [[data | e] log'];
    [| reflexivity].
  destruct data as [| | | | | [| item0 items] |]; simpl;
    try reflexivity;
    match goal with
    | |- context [lift ?r] => destruct r; reflexivity
    end.
Qed.

Lemma EventsClient_get_by_slug_log (slug : string) (log : list Request) :
  snd (EventsClient_get_by_slug slug log)
  = (log ++ [mkRequest "GET" ("/events/slug/" ++ slug) None])%list.
Proof.
  unfold EventsClient_get_by_slug. rewrite bind_lift_log. apply request_log.
Qed.

(** [get_by_slug] of Markets on the data [_request] returned. *)
Lemma MarketsClient_get_by_slug_data (slug : string) (log : list Request)
    (data : pyvalue) :
  fst (GammaClient__request "GET" ("/markets/slug/" ++ slug) None log) = Ok data ->
  fst (MarketsClient_get_by_slug slug log)
  = match data with
    | PyList (item0 :: _) => market <- new Market item0 ;; ret (Some market)
    | PyList [] => Ok None
    | _ => market <- new Market data ;; ret (Some market)
    end.
Proof.
  unfold MarketsClient_get_by_slug. simpl.
  destruct (GammaClient__request _ _ _ log) as [[d | e] log']; simpl;
    [| discriminate].
  intros H; inversion H; subst d.
  destruct data as [| | | | | [| item0 items] |]; simpl;
    try reflexivity;
    match goal with
    | |- context [init Market ?d] => destruct (init Market d); reflexivity
    | |- context [new Market ?d] => destruct (new Market d); reflexivity
    end.
Qed.

(** [resolve_url] once the slug is known: the two lookups in order. *)
Lemma resolve_url_lookups (url slug : string) (log : list Request) :
  GammaClient__extract_slug_from_url url = Some slug ->
  slug <> EmptyString ->
  GammaClient_resolve_url url log
  = match MarketsClient_get_by_slug slug log with
    | (Ok found, log1) => (Ok (option_map inl found), log1)
    | (Raise _, log1) =>
        match EventsClient_get_by_slug slug log1 with
        | (Ok found, log2) => (Ok (Some (inr found)), log2)
        | (Raise _, log2) => (Ok None, log2)
        end
    end.
Proof.
  intros He Hs. unfold GammaClient_resolve_url. rewrite He.
  destruct slug as [| c slug]; [congruence |]. simpl.
  destruct (MarketsClient_get_by_slug _ log) as [[found | e] log1];
    [reflexivity |].
  destruct (EventsClient_get_by_slug _ log1) as [[found | e'] log2];
    reflexivity.
Qed.

(** With a slug, [resolve_url] returns: no lookup makes it raise. *)
Lemma resolve_url_returns (url slug : string) (log : list Request) :
  GammaClient__extract_slug_from_url url = Some slug ->
  slug <> EmptyString ->
  exists found, fst (GammaClient_resolve_url url log) = Ok found.
Proof.
  intros He Hs. rewrite (resolve_url_lookups _ _ log He Hs).
  destruct (MarketsClient_get_by_slug _ log) as [[found | e] log1];
    [eexists; reflexivity |].
  destruct (EventsClient_get_by_slug _ log1) as [[found | e'] log2];
    eexists; reflexivity.
Qed.

(** The slug of a path: its last segment, which is not empty. *)
Lemma extract_slug_path (url : string) (parsed : ParseResult) :
  urlparse url = inr parsed ->
  let path_parts := split slash (strip "/" (path parsed)) in
  (2 <= length path_parts)%nat ->
  hd EmptyString path_parts = "market" \/ hd EmptyString path_parts = "event" ->
  GammaClient__extract_slug_from_url url = Some (last path_parts EmptyString)
  /\ last path_parts EmptyString <> EmptyString.
Proof.
  intros Hp parts Hlen Hhd. split.
  - unfold GammaClient__extract_slug_from_url. rewrite Hp. fold parts.
    apply Nat.leb_le in Hlen. rewrite Hlen. simpl.
    destruct Hhd as [-> | ->]; reflexivity.
  - apply split_strip_last. exact Hlen.
Qed.

(** No slug when the path is too short or begins with something else. *)
Lemma extract_slug_none (url : string) :
  match urlparse url with
  | inl _ => True
  | inr parsed =>
      let path_parts := split slash (strip "/" (path parsed)) in
      (length path_parts < 2)%nat
      \/ (hd EmptyString path_parts <> "market"
          /\ hd EmptyString path_parts <> "event")
  end ->
  GammaClient__extract_slug_from_url url = None.
Proof.
  unfold GammaClient__extract_slug_from_url.
  destruct (urlparse url) as [msg | parsed]; [reflexivity |].
  intros [Hlen | [Hm He]].
  - apply Nat.leb_gt in Hlen. rewrite Hlen. reflexivity.
  - simpl.
    destruct (String.eqb_spec (hd EmptyString (split slash (strip "/" (path parsed)))) "market");
      [contradiction |].
    destruct (String.eqb_spec (hd EmptyString (split slash (strip "/" (path parsed)))) "event");
      [contradiction |].
    rewrite andb_false_r. reflexivity.
Qed.

(** The slug [_extract_slug_from_url] returns is never empty. *)
Lemma extract_slug_nonempty (url slug : string) :
  GammaClient__extract_slug_from_url url = Some slug -> slug <> EmptyString.
Proof.
  unfold GammaClient__extract_slug_from_url.
  destruct (urlparse url) as [msg | parsed]; [discriminate |].
  destruct (2 <=? _)%nat eqn:Hlen; cbn [andb]; [| discriminate].
  match goal with
  | |- context [existsb ?f ?l] => destruct (existsb f l); [| discriminate]
  end.
  intros H; inversion H. apply split_strip_last. apply Nat.leb_le. exact Hlen.
Qed.

Lemma resolve_url_invalid (url : string) (log : list Request) :
  GammaClient__extract_slug_from_url url = None
  \/ GammaClient__extract_slug_from_url url = Some EmptyString ->
  GammaClient_resolve_url url log
  = (Raise (ValidationError ("Invalid Polymarket URL: " ++ url)), log).
Proof.
  intros [H | H]; unfold GammaClient_resolve_url; rewrite H; reflexivity.
Qed.

Lemma Async_resolve_url_invalid (url : string) :
  GammaClient__extract_slug_from_url url = None
  \/ GammaClient__extract_slug_from_url url = Some EmptyString ->
  AsyncGammaClient_resolve_url url
  = Throw (ValidationError ("Invalid Polymarket URL: " ++ url)).
Proof.
  intros [H | H]; unfold AsyncGammaClient_resolve_url;
    rewrite AsyncGammaClient__extract_slug_from_url_eq, H; reflexivity.
Qed.

(** A call whose keywords name no parameter given by position runs the
    body of the method on them. *)
Lemma bind_keywords_ok (positional : list string) (kwargs : pydict) :
  (forall name, In name positional -> ~ In name (map fst kwargs)) ->
  bind_keywords positional kwargs = Ok kwargs.
Proof.
  intros H. unfold bind_keywords.
  destruct (find _ kwargs) as [kv |] eqn:E; [| reflexivity].
  apply find_some in E as [Hin Hex]. apply existsb_exists in Hex as [name [Hp He]].
  apply String.eqb_eq in He. exfalso. apply (H name Hp).
  rewrite <- He. apply in_map. exact Hin.
Qed.

(** A keyword with the name of a parameter given by position: the call
    raises [TypeError]. *)
Lemma bind_keywords_raise (positional : list string) (kwargs : pydict)
    (name : string) :
  In name positional -> In name (map fst kwargs) ->
  exists msg, bind_keywords positional kwargs = Raise (PyError "TypeError" msg).
Proof.
  intros Hp Hk. unfold bind_keywords.
  destruct (find _ kwargs) as [kv |] eqn:E; [eexists; reflexivity |].
  exfalso. apply in_map_iff in Hk as [kv [Hfst Hin]].
  pose proof (find_none _ _ E kv Hin) as Hnone. simpl in Hnone.
  assert (Ht : existsb (String.eqb (fst kv)) positional = true).
  { apply existsb_exists. exists name. split; [exact Hp |].
    rewrite Hfst. apply String.eqb_refl. }
  congruence.
Qed.

Lemma keywords_bound {A : Type} (positional : list string) (kwargs : pydict)
    (body : pydict -> IO A) (log : list Request) :
  (forall name, In name positional -> ~ In name (map fst kwargs)) ->
  (params <- lift (bind_keywords positional kwargs) ;; body params) log
  = body kwargs log.
Proof. intros H. rewrite (bind_keywords_ok _ _ H). reflexivity. Qed.

Lemma keywords_collide {A : Type} (positional : list string) (kwargs : pydict)
    (body : pydict -> IO A) (log : list Request) (name : string) :
  In name positional -> In name (map fst kwargs) ->
  exists msg,
    (params <- lift (bind_keywords positional kwargs) ;; body params) log
    = (Raise (PyError "TypeError" msg), log).
Proof.
  intros Hp Hk. destruct (bind_keywords_raise _ _ _ Hp Hk) as [msg E].
  exists msg. rewrite E. reflexivity.
Qed.

Lemma not_self (params : pydict) :
  ~ In "self" (map fst params) ->
  forall name, In name ["self"] -> ~ In name (map fst params).
Proof. intros H name [<- | []]. exact H. Qed.

Lemma not_self_query (params : pydict) :
  ~ In "self" (map fst params) -> ~ In "query" (map fst params) ->
  forall name, In name ["self"; "query"] -> ~ In name (map fst params).
Proof. intros Hs Hq name [<- | [<- | []]]; assumption. Qed.

Lemma is_success_iff (r : Response) :
  is_success r = true <-> (200 <= status_code r <= 299)%Z.
Proof.
  unfold is_success. rewrite andb_true_iff, !Z.leb_le. reflexivity.
Qed.

Lemma is_success_false (r : Response) :
  (status_code r < 200 \/ 299 < status_code r)%Z -> is_success r = false.
Proof.
  intros H. destruct (is_success r) eqn:E; [| reflexivity].
  apply is_success_iff in E. lia.
Qed.

Lemma resolve_url_log (url slug : string) (log : list Request) :
  GammaClient__extract_slug_from_url url = Some slug ->
  slug <> EmptyString ->
  let market_lookup := mkRequest "GET" ("/markets/slug/" ++ slug) None in
  let event_lookup := mkRequest "GET" ("/events/slug/" ++ slug) None in
  match fst (MarketsClient_get_by_slug slug log) with
  | Ok _ => snd (GammaClient_resolve_url url log) = (log ++ [market_lookup])%list
  | Raise _ =>
      snd (GammaClient_resolve_url url log)
      = (log ++ [market_lookup; event_lookup])%list
  end.
Proof.
  intros He Hs market_lookup event_lookup.
  rewrite (resolve_url_lookups _ _ log He Hs).
  pose proof (MarketsClient_get_by_slug_log slug log) as Hm.
  destruct (MarketsClient_get_by_slug slug log) as [[found | e] log1];
    simpl in *; [exact Hm |].
  pose proof (EventsClient_get_by_slug_log slug log1) as Hv.
  destruct (EventsClient_get_by_slug slug log1) as [[found | e'] log2];
    simpl in *; subst log1 log2; rewrite <- app_assoc; reflexivity.
Qed.

(* =================================================================== *)
(** ** The properties of the specification *)
(* =================================================================== *)

(** C1, where the code departs from it: [resolve_url] does not return
    absent only when both lookups fail.  When the Markets endpoint
    answers the slug with an empty list, the Market lookup returns
    [None] without raising, and [resolve_url], blocking or not, returns
    that [None] at once: the only call made is the Market lookup, the
    Event lookup is not attempted, whatever it would have found. *)
Theorem resolve_url_empty_list_skips_event_lookup
    (url slug : string) (log : list Request) :
  GammaClient__extract_slug_from_url url = Some slug ->
  fst (GammaClient__request "GET" ("/markets/slug/" ++ slug) None log)
  = Ok (PyList []) ->
  GammaClient_resolve_url url log
  = (Ok None, (log ++ [mkRequest "GET" ("/markets/slug/" ++ slug) None])%list)
  /\ run_until_complete (AsyncGammaClient_resolve_url url) log
     = (Ok None, (log ++ [mkRequest "GET" ("/markets/slug/" ++ slug) None])%list).
Proof.
  intros He Hd.
  assert (H : GammaClient_resolve_url url log
              = (Ok None,
                 (log ++ [mkRequest "GET" ("/markets/slug/" ++ slug) None])%list)).
  { rewrite (resolve_url_lookups _ _ log He (extract_slug_nonempty _ _ He)).
    pose proof (MarketsClient_get_by_slug_log slug log) as Hl.
    pose proof (MarketsClient_get_by_slug_data slug log _ Hd) as Hf.
    destruct (MarketsClient_get_by_slug slug log) as [[found | e] log1];
      simpl in *; [| discriminate].
    inversion Hf; subst. reflexivity. }
  split; [exact H |].
  rewrite run_AsyncGammaClient_resolve_url. exact H.
Qed.

(** C2: on the data [_request] returns for the Markets slug endpoint,
    [get_by_slug] gives the first element decoded as a Market when the
    data is a non-empty list, [None] when it is the empty list, and the
    data itself decoded as a Market when it is a bare object; an error
    of the decoding is raised as it is.  The non-blocking method does
    the same. *)
Theorem markets_get_by_slug_shapes
    (slug : string) (log : list Request) (data : pyvalue) :
  fst (GammaClient__request "GET" ("/markets/slug/" ++ slug) None log) = Ok data ->
  (forall item0 rest, data = PyList (item0 :: rest) ->
     fst (MarketsClient_get_by_slug slug log)
     = (market <- new Market item0 ;; ret (Some market)))
  /\ (data = PyList [] -> fst (MarketsClient_get_by_slug slug log) = Ok None)
  /\ (forall kwargs, data = PyDict kwargs ->
        fst (MarketsClient_get_by_slug slug log)
        = (market <- init Market kwargs ;; ret (Some market)))
  /\ run_until_complete (AsyncMarketsClient_get_by_slug slug) log
     = MarketsClient_get_by_slug slug log.
Proof.
  intros Hd. pose proof (MarketsClient_get_by_slug_data slug log _ Hd) as H.
  repeat split.
  - intros item0 rest ->. exact H.
  - intros ->. exact H.
  - intros kwargs ->. exact H.
  - apply run_AsyncMarketsClient_get_by_slug.
Qed.

(** C3: when no slug can be extracted from the URL, [resolve_url] raises
    [ValidationError] and makes no call to the HTTP client: the log of
    the blocking client is unchanged, and the coroutine of the
    non-blocking client raises without ever being suspended.  No slug
    can be extracted, in particular, when [urlparse] raises, when the
    path has fewer than two segments, and when its first segment is
    neither [market] nor [event]. *)
Theorem resolve_url_validation_error (url : string) (log : list Request) :
  (GammaClient__extract_slug_from_url url = None
   \/ GammaClient__extract_slug_from_url url = Some EmptyString
   \/ match urlparse url with
      | inl _ => True
      | inr parsed =>
          let path_parts := split slash (strip "/" (path parsed)) in
          (length path_parts < 2)%nat
          \/ (hd EmptyString path_parts <> "market"
              /\ hd EmptyString path_parts <> "event")
      end) ->
  GammaClient_resolve_url url log
  = (Raise (ValidationError ("Invalid Polymarket URL: " ++ url)), log)
  /\ AsyncGammaClient_resolve_url url
     = Throw (ValidationError ("Invalid Polymarket URL: " ++ url)).
Proof.
  intros H.
  assert (H' : GammaClient__extract_slug_from_url url = None
               \/ GammaClient__extract_slug_from_url url = Some EmptyString).
  { destruct H as [H | [H | H]]; [left; exact H | right; exact H |].
    left. apply extract_slug_none. exact H. }
  split; [apply resolve_url_invalid | apply Async_resolve_url_invalid];
    exact H'.
Qed.

(** C4: when the response to a request has status 404, [_request],
    blocking or not, raises [NotFoundError] with status code 404.  That
    error is not a plain [GammaAPIError], and [_request] raises a
    [NotFoundError] on status 404 only: every other failure gives an
    error that [isinstance(e, NotFoundError)] tells apart. *)
Theorem request_404_not_found
    (method endpoint : string) (kwargs : option pydict)
    (log : list Request) (r : Response) :
  let req := mkRequest method endpoint kwargs in
  transport log req = Responded r ->
  status_code r = 404%Z ->
  let e := NotFoundError ("Resource not found: " ++ endpoint) (Some 404%Z) in
  GammaClient__request method endpoint kwargs log = (Raise e, (log ++ [req])%list)
  /\ run_until_complete (AsyncGammaClient__request method endpoint kwargs) log
     = (Raise e, (log ++ [req])%list)
  /\ exn_status e = Some 404%Z
  /\ is_NotFoundError e = true
  /\ (forall m s t, e <> GammaAPIError m s t)
  /\ (forall log' e',
        fst (GammaClient__request method endpoint kwargs log') = Raise e' ->
        is_NotFoundError e' = true ->
        exists r', transport log' req = Responded r' /\ status_code r' = 404%Z).
Proof.
  intros req Hr H404 e.
  pose proof (request_not_found _ _ _ _ _ Hr H404) as H.
  repeat split.
  - exact H.
  - rewrite run_AsyncGammaClient__request. exact H.
  - discriminate.
  - intros log' e' He' Hn.
    apply (proj1 (request_NotFoundError_iff method endpoint kwargs log')).
    exists e'. auto.
Qed.

(** C5: a response whose status is neither 2xx nor 404 makes [_request]
    raise [GammaAPIError] with the status code and the raw body of the
    response; an exception of the HTTP client, and a body announced as
    JSON that does not decode, are wrapped into a [GammaAPIError]
    without status.  No failure is dropped: whatever [_request] raises
    is an error of the SDK, and what it returns is what a 2xx response
    holds. *)
Theorem request_failures_wrapped
    (method endpoint : string) (kwargs : option pydict) (log : list Request) :
  let req := mkRequest method endpoint kwargs in
  let outcome := fst (GammaClient__request method endpoint kwargs log) in
  (forall r,
     transport log req = Responded r ->
     status_code r <> 404%Z ->
     (status_code r < 200 \/ 299 < status_code r)%Z ->
     outcome = Raise (GammaAPIError ("API Error: " ++ status_message r)
                                    (Some (status_code r)) (Some (text r))))
  /\ (forall cls msg,
        transport log req = Failed cls msg ->
        outcome = Raise (GammaAPIError ("Unexpected Error: " ++ msg) None None))
  /\ (forall r msg,
        transport log req = Responded r ->
        (200 <= status_code r <= 299)%Z ->
        contains "application/json" (headers_get_content_type r) = true ->
        json_loads (text r) = inl msg ->
        outcome = Raise (GammaAPIError ("Unexpected Error: " ++ msg) None None))
  /\ (forall e, outcome = Raise e -> is_GammaError e = true)
  /\ (forall v, outcome = Ok v ->
        exists r, transport log req = Responded r
                  /\ (200 <= status_code r <= 299)%Z).
Proof.
  intros req outcome. unfold outcome. repeat split.
  - intros r Hr H404 Hs.
    rewrite (request_status_error _ _ _ _ _ Hr H404 (is_success_false r Hs)).
    reflexivity.
  - intros cls msg Hf. rewrite (request_failed _ _ _ _ _ _ Hf). reflexivity.
  - intros r msg Hr Hs Hc Hj. apply is_success_iff in Hs.
    rewrite (request_json_malformed _ _ _ _ _ _ Hr Hs Hc Hj). reflexivity.
  - apply request_raises_GammaError.
  - intros v Hv. destruct (request_returns _ _ _ _ _ Hv) as [r [Hr [Hs _]]].
    exists r. split; [exact Hr | apply is_success_iff; exact Hs].
Qed.

(** C6: on a 2xx response, [_request] returns the decoded JSON value when
    the content type contains [application/json] and the body decodes,
    and otherwise the text of the response without the double quotes
    around it: what is returned is the text less a run of quotes at each
    end, and neither begins nor ends with a quote.  [get_status] is that
    request on [/status]. *)
Theorem request_success_decoding
    (method endpoint : string) (kwargs : option pydict)
    (log : list Request) (r : Response) :
  let req := mkRequest method endpoint kwargs in
  let quote := String dquote EmptyString in
  transport log req = Responded r ->
  (200 <= status_code r <= 299)%Z ->
  (contains "application/json" (headers_get_content_type r) = true ->
   forall v, json_loads (text r) = inr v ->
     GammaClient__request method endpoint kwargs log = (Ok v, (log ++ [req])%list))
  /\ (contains "application/json" (headers_get_content_type r) = false ->
      GammaClient__request method endpoint kwargs log
      = (Ok (PyStr (strip quote (text r))), (log ++ [req])%list)
      /\ (exists before after,
            text r = before ++ strip quote (text r) ++ after
            /\ all_in quote before = true /\ all_in quote after = true)
      /\ first_char (strip quote (text r)) <> Some dquote
      /\ last_char (strip quote (text r)) <> Some dquote)
  /\ GammaClient_get_status log = GammaClient__request "GET" "/status" None log.
Proof.
  intros req quote Hr Hs. apply is_success_iff in Hs. repeat split.
  - intros Hc v Hj. apply (request_json _ _ _ _ _ _ Hr Hs Hc Hj).
  - apply (request_text _ _ _ _ _ Hr Hs H).
  - apply strip_decompose.
  - intros Hf. apply strip_first_char in Hf. discriminate.
  - intros Hl. apply strip_last_char in Hl. discriminate.
Qed.

(** C7, as amended: when no filter of the caller is named [query] or
    [self], [search] makes one call, a GET on [/search] whose parameters
    are the filters of the caller with the query under the key [q] and
    every other key as it was, and returns what [_request] decoded, as it
    is.  A filter named [query] or [self] cannot be bound beside the
    parameter of that name: the call raises [TypeError] and makes no
    request.  The non-blocking method does the same. *)
Theorem search_single_get
    (query : string) (params : pydict) (log : list Request) :
  let merged := dict_set "q" (PyStr query) params in
  (~ In "self" (map fst params) -> ~ In "query" (map fst params) ->
   GammaClient_search query params log
   = GammaClient__request "GET" "/search" (Some merged) log
   /\ snd (GammaClient_search query params log)
      = (log ++ [mkRequest "GET" "/search" (Some merged)])%list
   /\ dict_lookup "q" merged = Some (PyStr query)
   /\ (forall key, key <> "q" -> dict_lookup key merged = dict_lookup key params))
  /\ (In "self" (map fst params) \/ In "query" (map fst params) ->
      exists msg,
        GammaClient_search query params log
        = (Raise (PyError "TypeError" msg), log))
  /\ run_until_complete (AsyncGammaClient_search query params) log
     = GammaClient_search query params log.
Proof.
  intros merged. split; [| split].
  - intros Hs Hq.
    assert (H : GammaClient_search query params log
                = GammaClient__request "GET" "/search" (Some merged) log).
    { unfold GammaClient_search.
      rewrite (keywords_bound _ _ _ _ (not_self_query params Hs Hq)).
      reflexivity. }
    split; [exact H |]. split; [rewrite H; apply request_log |].
    split; [apply dict_lookup_set_same |].
    intros key Hk. apply dict_lookup_set_other. exact Hk.
  - unfold GammaClient_search. intros [H | H].
    + apply (keywords_collide _ _ _ _ "self"); [left; reflexivity | exact H].
    + apply (keywords_collide _ _ _ _ "query");
        [right; left; reflexivity | exact H].
  - apply run_AsyncGammaClient_search.
Qed.

(** C8: when the market-types endpoint answers with an object,
    [get_market_types] returns what the object holds under
    [marketTypes], and the empty list when the object has no such
    field.  The non-blocking method does the same. *)
Theorem get_market_types_field (log : list Request) (d : pydict) :
  fst (GammaClient__request "GET" "/sports/market-types" None log)
  = Ok (PyDict d) ->
  (forall v, dict_lookup "marketTypes" d = Some v ->
     fst (SportsClient_get_market_types log) = Ok v)
  /\ (dict_lookup "marketTypes" d = None ->
      fst (SportsClient_get_market_types log) = Ok (PyList []))
  /\ run_until_complete AsyncSportsClient_get_market_types log
     = SportsClient_get_market_types log.
Proof.
  intros Hd.
  assert (H : fst (SportsClient_get_market_types log)
              = Ok (dict_get "marketTypes" (PyList []) d)).
  { unfold SportsClient_get_market_types. simpl.
    destruct (GammaClient__request _ _ _ log) as [[data | e] log'];
      simpl in *; [| discriminate].
    inversion Hd; subst. reflexivity. }
  repeat split.
  - intros v Hv. rewrite H. unfold dict_get. rewrite Hv. reflexivity.
  - intros Hn. rewrite H. unfold dict_get. rewrite Hn. reflexivity.
  - apply run_AsyncSportsClient_get_market_types.
Qed.

(** C10: when the path of the URL, stripped of its surrounding slashes
    and split on the slash, has two segments or more and begins with
    [market] or [event], the slug is the last segment, which is not
    empty, and it is the slug of the lookups [resolve_url] makes: a
    Market lookup by that slug, followed or not by an Event lookup by
    the same slug, in the blocking and in the non-blocking client. *)
Theorem resolve_url_slug_is_last_segment
    (url : string) (parsed : ParseResult) (log : list Request) :
  urlparse url = inr parsed ->
  let path_parts := split slash (strip "/" (path parsed)) in
  (2 <= length path_parts)%nat ->
  hd EmptyString path_parts = "market" \/ hd EmptyString path_parts = "event" ->
  let slug := last path_parts EmptyString in
  let market_lookup := mkRequest "GET" ("/markets/slug/" ++ slug) None in
  let event_lookup := mkRequest "GET" ("/events/slug/" ++ slug) None in
  slug <> EmptyString
  /\ GammaClient__extract_slug_from_url url = Some slug
  /\ AsyncGammaClient__extract_slug_from_url url = Some slug
  /\ (snd (GammaClient_resolve_url url log) = (log ++ [market_lookup])%list
      \/ snd (GammaClient_resolve_url url log)
         = (log ++ [market_lookup; event_lookup])%list)
  /\ (snd (run_until_complete (AsyncGammaClient_resolve_url url) log)
      = (log ++ [market_lookup])%list
      \/ snd (run_until_complete (AsyncGammaClient_resolve_url url) log)
         = (log ++ [market_lookup; event_lookup])%list).
Proof.
  intros Hp path_parts Hlen Hhd slug market_lookup event_lookup.
  destruct (extract_slug_path url parsed Hp Hlen Hhd) as [He Hne].
  fold path_parts in He, Hne. fold slug in He, Hne.
  assert (Hlog : snd (GammaClient_resolve_url url log)
                 = (log ++ [market_lookup])%list
                 \/ snd (GammaClient_resolve_url url log)
                    = (log ++ [market_lookup; event_lookup])%list).
  { pose proof (resolve_url_log url slug log He Hne) as H. simpl in H.
    destruct (fst (MarketsClient_get_by_slug slug log)); [left | right];
      exact H. }
  repeat split; try assumption.
  rewrite run_AsyncGammaClient_resolve_url. exact Hlog.
Qed.

#[local] Hint Resolve
  run_AsyncGammaClient__request
  run_AsyncSportsClient_list_teams
  run_AsyncSportsClient_get_metadata
  run_AsyncSportsClient_get_market_types
  run_AsyncTagsClient_list
  run_AsyncTagsClient_get_by_id
  run_AsyncTagsClient_get_by_slug
  run_AsyncTagsClient_get_related_by_id
  run_AsyncTagsClient_get_related_by_slug
  run_AsyncTagsClient_get_tags_related_to_id
  run_AsyncTagsClient_get_tags_related_to_slug
  run_AsyncEventsClient_list
  run_AsyncEventsClient_get_by_id
  run_AsyncEventsClient_get_tags
  run_AsyncEventsClient_get_by_slug
  run_AsyncMarketsClient_list
  run_AsyncMarketsClient_get_by_id
  run_AsyncMarketsClient_get_tags
  run_AsyncMarketsClient_get_by_slug
  run_AsyncSeriesClient_list
  run_AsyncSeriesClient_get_by_id
  run_AsyncCommentsClient_list
  run_AsyncCommentsClient_get_by_id
  run_AsyncCommentsClient_get_by_user
  run_AsyncProfilesClient_get_by_address
  run_AsyncGammaClient_get_status
  run_AsyncGammaClient_search
  run_AsyncGammaClient_resolve_url
  AsyncGammaClient__extract_slug_from_url_eq : async_run.

(** C9: the non-blocking client behaves as the blocking one.  Every
    method of [AsyncGammaClient] and of its sub-clients, run to
    completion by the event loop against a transport, returns the value
    or raises the exception that the method of the same name of
    [GammaClient] returns or raises against that transport, after the
    same calls to the HTTP client; the two extract the same slug from
    every URL. *)
Theorem async_client_equivalent (log : list Request) :
  (forall method endpoint kwargs,
     run_until_complete (AsyncGammaClient__request method endpoint kwargs) log
     = GammaClient__request method endpoint kwargs log)
  /\ (forall params,
        run_until_complete (AsyncSportsClient_list_teams params) log
        = SportsClient_list_teams params log)
  /\ run_until_complete AsyncSportsClient_get_metadata log = SportsClient_get_metadata log
  /\ run_until_complete AsyncSportsClient_get_market_types log = SportsClient_get_market_types log
  /\ (forall params,
        run_until_complete (AsyncTagsClient_list params) log
        = TagsClient_list params log)
  /\ (forall tag_id,
        run_until_complete (AsyncTagsClient_get_by_id tag_id) log
        = TagsClient_get_by_id tag_id log)
  /\ (forall slug,
        run_until_complete (AsyncTagsClient_get_by_slug slug) log
        = TagsClient_get_by_slug slug log)
  /\ (forall tag_id,
        run_until_complete (AsyncTagsClient_get_related_by_id tag_id) log
        = TagsClient_get_related_by_id tag_id log)
  /\ (forall slug,
        run_until_complete (AsyncTagsClient_get_related_by_slug slug) log
        = TagsClient_get_related_by_slug slug log)
  /\ (forall tag_id,
        run_until_complete (AsyncTagsClient_get_tags_related_to_id tag_id) log
        = TagsClient_get_tags_related_to_id tag_id log)
  /\ (forall slug,
        run_until_complete (AsyncTagsClient_get_tags_related_to_slug slug) log
        = TagsClient_get_tags_related_to_slug slug log)
  /\ (forall params,
        run_until_complete (AsyncEventsClient_list params) log
        = EventsClient_list params log)
  /\ (forall event_id,
        run_until_complete (AsyncEventsClient_get_by_id event_id) log
        = EventsClient_get_by_id event_id log)
  /\ (forall event_id,
        run_until_complete (AsyncEventsClient_get_tags event_id) log
        = EventsClient_get_tags event_id log)
  /\ (forall slug,
        run_until_complete (AsyncEventsClient_get_by_slug slug) log
        = EventsClient_get_by_slug slug log)
  /\ (forall params,
        run_until_complete (AsyncMarketsClient_list params) log
        = MarketsClient_list params log)
  /\ (forall market_id,
        run_until_complete (AsyncMarketsClient_get_by_id market_id) log
        = MarketsClient_get_by_id market_id log)
  /\ (forall market_id,
        run_until_complete (AsyncMarketsClient_get_tags market_id) log
        = MarketsClient_get_tags market_id log)
  /\ (forall slug,
        run_until_complete (AsyncMarketsClient_get_by_slug slug) log
        = MarketsClient_get_by_slug slug log)
  /\ (forall params,
        run_until_complete (AsyncSeriesClient_list params) log
        = SeriesClient_list params log)
  /\ (forall series_id,
        run_until_complete (AsyncSeriesClient_get_by_id series_id) log
        = SeriesClient_get_by_id series_id log)
  /\ (forall params,
        run_until_complete (AsyncCommentsClient_list params) log
        = CommentsClient_list params log)
  /\ (forall comment_id,
        run_until_complete (AsyncCommentsClient_get_by_id comment_id) log
        = CommentsClient_get_by_id comment_id log)
  /\ (forall address,
        run_until_complete (AsyncCommentsClient_get_by_user address) log
        = CommentsClient_get_by_user address log)
  /\ (forall address,
        run_until_complete (AsyncProfilesClient_get_by_address address) log
        = ProfilesClient_get_by_address address log)
  /\ run_until_complete AsyncGammaClient_get_status log = GammaClient_get_status log
  /\ (forall query params,
        run_until_complete (AsyncGammaClient_search query params) log
        = GammaClient_search query params log)
  /\ (forall url,
        run_until_complete (AsyncGammaClient_resolve_url url) log
        = GammaClient_resolve_url url log)
  /\ (forall url,
        AsyncGammaClient__extract_slug_from_url url
        = GammaClient__extract_slug_from_url url).
Proof. repeat split; intros; auto with async_run. Qed.

(* =================================================================== *)
(** ** Further properties: strings *)
(* =================================================================== *)

Lemma string_app_assoc (a b c : string) : (a ++ b) ++ c = a ++ (b ++ c).
Proof. induction a as [| x a IH]; simpl; [reflexivity | rewrite IH; reflexivity]. Qed.

Lemma all_in_cons (chars : string) (a : ascii) (s : string) :
  all_in chars (String a s) = in_chars a chars && all_in chars s.
Proof. reflexivity. Qed.

Lemma lstrip_all (chars s : string) :
  all_in chars s = true -> lstrip chars s = EmptyString.
Proof.
  induction s as [| a s IH]; [reflexivity |].
  rewrite all_in_cons. intros H. apply andb_prop in H as [Ha Hs].
  simpl. rewrite Ha. auto.
Qed.

Lemma rstrip_all (chars s : string) :
  all_in chars s = true -> rstrip chars s = EmptyString.
Proof.
  induction s as [| a s IH]; [reflexivity |].
  rewrite all_in_cons. intros H. apply andb_prop in H as [Ha Hs].
  simpl. rewrite (IH Hs), Ha. reflexivity.
Qed.

Lemma lstrip_app_all (chars l s : string) :
  all_in chars l = true -> lstrip chars (l ++ s) = lstrip chars s.
Proof.
  induction l as [| a l IH]; [reflexivity |].
  rewrite all_in_cons. intros H. apply andb_prop in H as [Ha Hl].
  simpl. rewrite Ha. auto.
Qed.

Lemma rstrip_app_all (chars s r : string) :
  all_in chars r = true -> rstrip chars (s ++ r) = rstrip chars s.
Proof.
  intros Hr. induction s as [| a s IH]; simpl.
  - apply rstrip_all. exact Hr.
  - rewrite IH. reflexivity.
Qed.

(** Nothing to strip at the front, nothing stripped. *)
Lemma lstrip_id (chars s : string) :
  (forall c, first_char s = Some c -> in_chars c chars = false) ->
  lstrip chars s = s.
Proof.
  destruct s as [| a s]; [reflexivity |].
  intros H. simpl. rewrite (H a eq_refl). reflexivity.
Qed.

Lemma rstrip_id (chars s : string) :
  (forall c, last_char s = Some c -> in_chars c chars = false) ->
  rstrip chars s = s.
Proof.
  induction s as [| a s IH]; [reflexivity |].
  intros H. simpl. destruct s as [| b s'].
  - simpl. rewrite (H a eq_refl). reflexivity.
  - rewrite IH; [reflexivity |].
    intros c Hc. apply H. rewrite last_char_cons by discriminate. exact Hc.
Qed.

(** [strip] undoes the wrapping of a string that has nothing to strip at
    its ends in runs of stripped characters. *)
Lemma strip_app (chars l s r : string) :
  all_in chars l = true ->
  all_in chars r = true ->
  (forall c, first_char s = Some c -> in_chars c chars = false) ->
  (forall c, last_char s = Some c -> in_chars c chars = false) ->
  strip chars (l ++ s ++ r) = s.
Proof.
  intros Hl Hr Hf Hla. unfold strip. rewrite (lstrip_app_all _ _ _ Hl).
  destruct s as [| a s].
  - simpl. rewrite (lstrip_all _ _ Hr). reflexivity.
  - assert (E : lstrip chars (String a s ++ r) = String a s ++ r).
    { simpl. rewrite (Hf a eq_refl). reflexivity. }
    rewrite E, (rstrip_app_all _ _ _ Hr). apply rstrip_id. exact Hla.
Qed.

(** Runs of stripped characters around a string do not change what
    [strip] leaves of it. *)
Lemma strip_app_all (chars l s r : string) :
  all_in chars l = true ->
  all_in chars r = true ->
  strip chars (l ++ s ++ r) = strip chars s.
Proof.
  intros Hl Hr.
  destruct (strip_decompose chars s) as [l' [r' [Hs [Hl' Hr']]]].
  assert (Happ : forall a b, all_in chars a = true -> all_in chars b = true ->
                             all_in chars (a ++ b) = true).
  { intros a b Ha Hb. induction a as [| x a IH]; [exact Hb |].
    rewrite all_in_cons in Ha. apply andb_prop in Ha as [Hx Ha].
    change (String x a ++ b) with (String x (a ++ b)).
    rewrite all_in_cons, Hx. simpl. auto. }
  rewrite Hs at 1.
  replace (l ++ (l' ++ strip chars s ++ r') ++ r)
    with ((l ++ l') ++ strip chars s ++ (r' ++ r))
    by (rewrite !string_app_assoc; reflexivity).
  apply strip_app; auto.
  - apply strip_first_char.
  - apply strip_last_char.
Qed.

(** No part of a split holds the separator. *)
Lemma split_no_sep (sep : ascii) (s : string) :
  Forall (fun p => ~ In sep (list_ascii_of_string p)) (split sep s).
Proof.
  induction s as [| c s IH]; simpl.
  - constructor; [intros [] | constructor].
  - destruct (Ascii.eqb_spec c sep) as [-> | Hne].
    + constructor; [intros [] | exact IH].
    + destruct (split sep s) as [| w ws]; [constructor; [| constructor] |].
      * simpl. intros [H | []]. congruence.
      * inversion IH as [| w' ws' Hw Hws]; subst. constructor; [| exact Hws].
        simpl. intros [H | H]; [congruence | contradiction].
Qed.

(** Joining the parts of a split gives the string back. *)
Lemma join_split (sep : ascii) (s : string) : join sep (split sep s) = s.
Proof.
  induction s as [| c s IH]; [reflexivity |]. simpl.
  pose proof (split_nonempty sep s) as Hne.
  destruct (Ascii.eqb_spec c sep) as [-> | Hc].
  - destruct (split sep s) as [| w ws]; [congruence |].
    change (join sep (EmptyString :: w :: ws))
      with (String sep (join sep (w :: ws))).
    rewrite IH. reflexivity.
  - destruct (split sep s) as [| w ws]; [congruence |].
    destruct ws as [| w' ws].
    + simpl in *. rewrite IH. reflexivity.
    + change (join sep (String c w :: w' :: ws))
        with (String c (join sep (w :: w' :: ws))).
      rewrite IH. reflexivity.
Qed.

(** The last of two parts or more follows the last separator. *)
Lemma join_last (sep : ascii) (parts : list string) :
  (2 <= length parts)%nat ->
  join sep parts
  = join sep (removelast parts) ++ String sep (last parts EmptyString).
Proof.
  induction parts as [| p ps IH]; simpl; [lia |].
  intros Hlen. destruct ps as [| q ps]; [simpl in Hlen; lia |].
  destruct ps as [| q' ps].
  - reflexivity.
  - change (join sep (p :: q :: q' :: ps))
      with (p ++ String sep (join sep (q :: q' :: ps))).
    rewrite IH by (simpl; lia).
    change (removelast (p :: q :: q' :: ps))
      with (p :: removelast (q :: q' :: ps)).
    change (last (p :: q :: q' :: ps) EmptyString)
      with (last (q :: q' :: ps) EmptyString).
    destruct (removelast (q :: q' :: ps)) as [| x xs] eqn:E;
      [discriminate |].
    change (join sep (p :: x :: xs)) with (p ++ String sep (join sep (x :: xs))).
    rewrite string_app_assoc. reflexivity.
Qed.

(* =================================================================== *)
(** ** Further properties: the transport and the URL *)
(* =================================================================== *)

Lemma in_chars_quote (c : ascii) :
  in_chars c (String dquote EmptyString) = false <-> c <> dquote.
Proof.
  unfold in_chars. simpl. rewrite orb_false_r. apply Ascii.eqb_neq.
Qed.

(** X9: a 2xx response that is not JSON and whose text is a payload
    between two runs of double quotes, the payload itself neither
    beginning nor ending with one, makes [_request] return the payload:
    a quoted string comes back without its quotes, a text without quotes
    at its ends comes back as it is, a text of quotes alone as the empty
    string.  The non-blocking [_request] does the same. *)
Theorem request_text_unwraps_quotes
    (method endpoint : string) (kwargs : option pydict) (log : list Request)
    (r : Response) (before payload after : string) :
  let quote := String dquote EmptyString in
  transport log (mkRequest method endpoint kwargs) = Responded r ->
  (200 <= status_code r <= 299)%Z ->
  contains "application/json" (headers_get_content_type r) = false ->
  text r = before ++ payload ++ after ->
  all_in quote before = true ->
  all_in quote after = true ->
  first_char payload <> Some dquote ->
  last_char payload <> Some dquote ->
  fst (GammaClient__request method endpoint kwargs log) = Ok (PyStr payload)
  /\ fst (run_until_complete (AsyncGammaClient__request method endpoint kwargs) log)
     = Ok (PyStr payload).
Proof.
  intros quote Hr Hs Hc Ht Hb Ha Hf Hl. apply is_success_iff in Hs.
  assert (H : fst (GammaClient__request method endpoint kwargs log)
              = Ok (PyStr payload)).
  { rewrite (request_text _ _ _ _ _ Hr Hs Hc). simpl. rewrite Ht.
    fold quote. rewrite strip_app; auto.
    - intros c Hc'. apply in_chars_quote. congruence.
    - intros c Hc'. apply in_chars_quote. congruence. }
  split; [exact H |]. rewrite run_AsyncGammaClient__request. exact H.
Qed.

(** X12: the status an error of [_request] carries is the status of the
    response, which was not a success; an error without status comes from
    an exception of the HTTP client or from a 2xx body announced as JSON
    that does not decode, never from an HTTP error status. *)
Theorem request_error_status_origin
    (method endpoint : string) (kwargs : option pydict) (log : list Request)
    (e : exn) :
  let req := mkRequest method endpoint kwargs in
  fst (GammaClient__request method endpoint kwargs log) = Raise e ->
  match exn_status e with
  | Some s =>
      exists r, transport log req = Responded r
                /\ status_code r = s /\ is_success r = false
  | None =>
      (exists cls msg, transport log req = Failed cls msg)
      \/ (exists r msg,
            transport log req = Responded r /\ is_success r = true
            /\ contains "application/json" (headers_get_content_type r) = true
            /\ json_loads (text r) = inl msg)
  end.
Proof.
  intros req. unfold GammaClient__request, Client_request. simpl. fold req.
  destruct (transport log req) as [r | cls msg]; simpl.
  - destruct (Z.eqb_spec (status_code r) 404) as [E | E]; simpl.
    + intros H; inversion H; subst e; simpl. exists r.
      split; [reflexivity | split; [exact E |]].
      destruct (is_success r) eqn:Hs; [| reflexivity].
      apply success_not_404 in Hs. apply Z.eqb_neq in Hs. contradiction.
    + unfold raise_for_status. destruct (is_success r) eqn:Hs; simpl.
      * destruct (contains _ _) eqn:Hc; simpl; [| discriminate].
        unfold response_json. destruct (json_loads (text r)) as [msg | v] eqn:Hj;
          simpl; [| discriminate].
        intros H; inversion H; subst e; simpl. right. exists r, msg. auto.
      * intros H; inversion H; subst e; simpl. exists r. auto.
  - intros H; inversion H; subst e; simpl. left. exists cls, msg. reflexivity.
Qed.

(** X10: the slug [_extract_slug_from_url] returns is what follows the
    last slash of the path once the slashes around the path are removed:
    it holds no slash and is not empty, and what stands before it begins
    with the segment [market] or [event]. *)
Theorem slug_follows_last_slash (url slug : string) :
  GammaClient__extract_slug_from_url url = Some slug ->
  exists parsed before,
    urlparse url = inr parsed
    /\ strip "/" (path parsed) = before ++ String slash slug
    /\ ~ In slash (list_ascii_of_string slug)
    /\ slug <> EmptyString
    /\ (hd EmptyString (split slash (strip "/" (path parsed))) = "market"
        \/ hd EmptyString (split slash (strip "/" (path parsed))) = "event").
Proof.
  intros He. pose proof (extract_slug_nonempty _ _ He) as Hne. revert He.
  unfold GammaClient__extract_slug_from_url.
  destruct (urlparse url) as [msg | parsed]; [discriminate |].
  set (parts := split slash (strip "/" (path parsed))).
  destruct (2 <=? length parts)%nat eqn:Hlen; cbn [andb]; [| discriminate].
  destruct (existsb (String.eqb (hd EmptyString parts)) ["market"; "event"])
    eqn:Hhd; [| discriminate].
  intros H; inversion H as [Hslug]. subst slug. apply Nat.leb_le in Hlen.
  exists parsed, (join slash (removelast parts)). repeat split.
  - rewrite <- (join_split slash (strip "/" (path parsed))). fold parts.
    apply join_last. exact Hlen.
  - pose proof (split_no_sep slash (strip "/" (path parsed))) as Hall.
    fold parts in Hall. rewrite Forall_forall in Hall. apply Hall.
    assert (Hin : forall (l : list string) d, l <> [] -> In (last l d) l).
    { clear. induction l as [| x l IH]; intros d Hl; [congruence |].
      destruct l as [| y l]; [left; reflexivity |].
      right. apply IH. discriminate. }
    apply Hin. intros E. rewrite E in Hlen. simpl in Hlen. lia.
  - exact Hne.
  - simpl in Hhd. rewrite orb_false_r in Hhd. apply orb_prop in Hhd.
    destruct Hhd as [E | E]; apply String.eqb_eq in E; auto.
Qed.

(** X11: slashes before and after the path do not change the slug: two
    URLs whose paths differ by runs of slashes at the ends give the same
    slug, or none both. *)
Theorem slug_ignores_surrounding_slashes
    (url url' : string) (parsed parsed' : ParseResult) (before after : string) :
  urlparse url = inr parsed ->
  urlparse url' = inr parsed' ->
  path parsed' = before ++ path parsed ++ after ->
  all_in "/" before = true ->
  all_in "/" after = true ->
  GammaClient__extract_slug_from_url url'
  = GammaClient__extract_slug_from_url url
  /\ AsyncGammaClient__extract_slug_from_url url'
     = AsyncGammaClient__extract_slug_from_url url.
Proof.
  intros Hp Hp' Hpath Hb Ha.
  assert (H : GammaClient__extract_slug_from_url url'
              = GammaClient__extract_slug_from_url url).
  { unfold GammaClient__extract_slug_from_url. rewrite Hp, Hp', Hpath.
    rewrite (strip_app_all "/" before (path parsed) after Hb Ha).
    reflexivity. }
  split; [exact H |].
  rewrite !AsyncGammaClient__extract_slug_from_url_eq. exact H.
Qed.

(* =================================================================== *)
(** ** Further properties: [resolve_url] *)
(* =================================================================== *)

(** X6: [resolve_url] makes two calls at most, and raises nothing but
    [ValidationError]: when it raises, no slug could be extracted from
    the URL and no call was made.  Whatever the lookups raise, an error
    of the SDK or not, stays inside.  The non-blocking method does the
    same. *)
Theorem resolve_url_raises_only_validation_error
    (url : string) (log : list Request) :
  (exists calls,
     snd (GammaClient_resolve_url url log) = (log ++ calls)%list
     /\ (length calls <= 2)%nat)
  /\ (forall e,
        fst (GammaClient_resolve_url url log) = Raise e ->
        e = ValidationError ("Invalid Polymarket URL: " ++ url)
        /\ GammaClient__extract_slug_from_url url = None
        /\ snd (GammaClient_resolve_url url log) = log)
  /\ run_until_complete (AsyncGammaClient_resolve_url url) log
     = GammaClient_resolve_url url log.
Proof.
  split; [| split; [| apply run_AsyncGammaClient_resolve_url]].
  - destruct (GammaClient__extract_slug_from_url url) as [slug |] eqn:He.
    + pose proof (extract_slug_nonempty _ _ He) as Hne.
      pose proof (resolve_url_log url slug log He Hne) as H. simpl in H.
      destruct (fst (MarketsClient_get_by_slug slug log));
        rewrite H; eexists; split; try reflexivity; simpl; lia.
    + rewrite (resolve_url_invalid url log (or_introl He)).
      exists []. split; [rewrite app_nil_r; reflexivity | simpl; lia].
  - intros e Hr.
    destruct (GammaClient__extract_slug_from_url url) as [slug |] eqn:He.
    + destruct (resolve_url_returns url slug log He (extract_slug_nonempty _ _ He))
        as [found Hf].
      congruence.
    + rewrite (resolve_url_invalid url log (or_introl He)) in *.
      simpl in Hr. inversion Hr. auto.
Qed.

(** X7: where the result of [resolve_url] comes from, once a slug is
    extracted.  It is a market exactly when the Market lookup returns
    one.  It is an event exactly when the Market lookup raises, whatever
    it raises, and the Event lookup, made after it, returns the event.
    It is [None] exactly when the Market lookup returns [None], or both
    lookups raise. *)
Theorem resolve_url_result_origin (url slug : string) (log : list Request) :
  GammaClient__extract_slug_from_url url = Some slug ->
  let market_lookup := mkRequest "GET" ("/markets/slug/" ++ slug) None in
  let markets := fst (MarketsClient_get_by_slug slug log) in
  let events := fst (EventsClient_get_by_slug slug (log ++ [market_lookup])%list) in
  let resolved := fst (GammaClient_resolve_url url log) in
  (forall market,
     resolved = Ok (Some (inl market)) <-> markets = Ok (Some market))
  /\ (forall event,
        resolved = Ok (Some (inr event))
        <-> (exists e, markets = Raise e) /\ events = Ok event)
  /\ (resolved = Ok None
      <-> markets = Ok None
          \/ ((exists e, markets = Raise e) /\ exists e', events = Raise e')).
Proof.
  intros He market_lookup markets events resolved.
  subst resolved markets events.
  rewrite (resolve_url_lookups url slug log He (extract_slug_nonempty _ _ He)).
  pose proof (MarketsClient_get_by_slug_log slug log) as Hlog.
  fold market_lookup in Hlog.
  destruct (MarketsClient_get_by_slug slug log) as [[[found |] | e] log1];
    simpl in Hlog; subst log1; simpl;
    try (destruct (EventsClient_get_by_slug slug (log ++ [market_lookup])%list)
           as [[found' | e'] log2]; simpl);
    repeat split; intros;
    repeat match goal with
      | H : _ /\ _ |- _ => destruct H
      | H : _ \/ _ |- _ => destruct H
      | H : exists _, _ |- _ => destruct H
      end;
    try congruence;
    try (left; reflexivity);
    try (right; split; eexists; reflexivity);
    try (eexists; reflexivity).
Qed.

(** X8: [resolve_url] depends on the URL through its slug alone: two URLs
    with the same slug, one under [market] and one under [event], are
    resolved by the same calls to the same result, the Market lookup
    first for both. *)
Theorem resolve_url_depends_on_slug_only
    (url url' slug : string) (log : list Request) :
  GammaClient__extract_slug_from_url url = Some slug ->
  GammaClient__extract_slug_from_url url' = Some slug ->
  GammaClient_resolve_url url log = GammaClient_resolve_url url' log
  /\ run_until_complete (AsyncGammaClient_resolve_url url) log
     = run_until_complete (AsyncGammaClient_resolve_url url') log
  /\ exists calls,
       snd (GammaClient_resolve_url url log)
       = (log ++ mkRequest "GET" ("/markets/slug/" ++ slug) None :: calls)%list.
Proof.
  intros He He'. pose proof (extract_slug_nonempty _ _ He) as Hne.
  assert (H : GammaClient_resolve_url url log = GammaClient_resolve_url url' log).
  { rewrite (resolve_url_lookups url slug log He Hne).
    rewrite (resolve_url_lookups url' slug log He' Hne). reflexivity. }
  split; [exact H |]. split.
  - rewrite !run_AsyncGammaClient_resolve_url. exact H.
  - pose proof (resolve_url_log url slug log He Hne) as Hl. simpl in Hl.
    destruct (fst (MarketsClient_get_by_slug slug log)); rewrite Hl;
      eexists; reflexivity.
Qed.

(* =================================================================== *)
(** ** Further properties: the methods of the sub-clients *)
(* =================================================================== *)

Create HintDb methods.

#[local] Hint Unfold
  SportsClient_list_teams
  SportsClient_get_metadata
  SportsClient_get_market_types
  TagsClient_list
  TagsClient_get_by_id
  TagsClient_get_by_slug
  TagsClient_get_related_by_id
  TagsClient_get_related_by_slug
  TagsClient_get_tags_related_to_id
  TagsClient_get_tags_related_to_slug
  EventsClient_list
  EventsClient_get_by_id
  EventsClient_get_tags
  EventsClient_get_by_slug
  MarketsClient_list
  MarketsClient_get_by_id
  MarketsClient_get_tags
  SeriesClient_list
  SeriesClient_get_by_id
  CommentsClient_list
  CommentsClient_get_by_id
  CommentsClient_get_by_user
  ProfilesClient_get_by_address
  GammaClient_get_status : methods.

Lemma bind_lift_fst {A B : Type} (c : IO A) (g : A -> result B)
    (log : list Request) (a : A) :
  fst (c log) = Ok a -> fst ((x <- c ;; lift (g x)) log) = g a.
Proof.
  simpl. destruct (c log) as [[a' | e] log']; simpl; [| discriminate].
  intros H; inversion H; subst. destruct (g a); reflexivity.
Qed.

Lemma bind_raise_fst {A B : Type} (c : IO A) (f : A -> IO B)
    (log : list Request) (e : exn) :
  fst (c log) = Raise e -> fst ((x <- c ;; f x) log) = Raise e.
Proof.
  simpl. destruct (c log) as [[a | e'] log']; simpl; [discriminate |].
  intros H; inversion H; reflexivity.
Qed.

Lemma new_not_dict (m : model) (data : pyvalue) :
  (forall kwargs, data <> PyDict kwargs) ->
  new m data = Raise (PyError "TypeError" "argument after ** must be a mapping").
Proof.
  intros H. destruct data; try reflexivity. exfalso. eapply H. reflexivity.
Qed.

(** [map_result] decodes every item or raises the error of the first
    item that does not decode. *)
Lemma map_result_ok {A B : Type} (f : A -> result B) (l : list A) (ys : list B) :
  map_result f l = Ok ys <-> Forall2 (fun x y => f x = Ok y) l ys.
Proof.
  revert ys. induction l as [| x l IH]; intros ys; simpl.
  - split; [intros H; inversion H; constructor | intros H; inversion H; reflexivity].
  - destruct (f x) as [y | e] eqn:Ex.
    + destruct (map_result f l) as [ys' | e] eqn:El.
      * split.
        -- intros H; inversion H; subst. constructor; [exact Ex |].
           apply IH. reflexivity.
        -- intros H; inversion H as [| x' y' l' ys'' Hxy Hrest]; subst.
           apply IH in Hrest. congruence.
      * split; [discriminate |].
        intros H; inversion H as [| x' y' l' ys'' Hxy Hrest]; subst.
        apply IH in Hrest. discriminate.
    + split; [discriminate |].
      intros H; inversion H; subst. congruence.
Qed.

Lemma map_result_raise {A B : Type} (f : A -> result B) (l : list A) (e : exn) :
  map_result f l = Raise e
  <-> exists before x after,
        l = (before ++ x :: after)%list
        /\ Forall (fun i => exists y, f i = Ok y) before
        /\ f x = Raise e.
Proof.
  induction l as [| x l IH]; simpl.
  - split; [discriminate |].
    intros [before [x [after [H _]]]]. destruct before; discriminate.
  - destruct (f x) as [y | e'] eqn:Ex.
    + destruct (map_result f l) as [ys | e'] eqn:El.
      * split; [discriminate |].
        intros [before [x' [after [Hl [Hb Hx]]]]].
        destruct before as [| b before]; simpl in Hl; inversion Hl; subst.
        -- congruence.
        -- inversion Hb; subst.
           assert (Hc : Ok ys = Raise e :> result (list B))
             by (apply IH; exists before, x', after; auto).
           discriminate Hc.
      * split.
        -- intros H; inversion H; subst.
           destruct (proj1 IH eq_refl) as [before [x' [after [Hl [Hb Hx]]]]].
           exists (x :: before), x', after. subst l.
           repeat split; [| exact Hx].
           constructor; [exists y; exact Ex | exact Hb].
        -- intros [before [x' [after [Hl [Hb Hx]]]]].
           destruct before as [| b before]; simpl in Hl; inversion Hl; subst.
           ++ congruence.
           ++ inversion Hb; subst.
              apply IH. exists before, x', after. auto.
    + split.
      * intros H; inversion H; subst. exists [], x, l. auto.
      * intros [before [x' [after [Hl [Hb Hx]]]]].
        destruct before as [| b before]; simpl in Hl; inversion Hl; subst.
        -- congruence.
        -- inversion Hb as [| b' before' [y Hy] Hrest]; subst. congruence.
Qed.

(** X1: every method of the sub-clients, and [get_status], makes one call
    to the HTTP client and no other, whatever the call comes to: a GET on
    the endpoint of the method, the identifier put into the path as it is
    and the filters of the caller passed as they are.  The one exception
    is a filter named [self], which cannot be bound beside the receiver
    of the method: the call raises [TypeError] and makes no call to the
    HTTP client. *)
Theorem subclient_methods_single_get (log : list Request) :
  (forall params,
       (~ In "self" (map fst params) ->
        snd (SportsClient_list_teams params log)
        = (log ++ [mkRequest "GET" "/teams" (Some params)])%list)
       /\ (In "self" (map fst params) ->
           snd (SportsClient_list_teams params log) = log
           /\ exists msg,
                fst (SportsClient_list_teams params log) = Raise (PyError "TypeError" msg)))
  /\ (snd (SportsClient_get_metadata log)
       = (log ++ [mkRequest "GET" "/sports" None])%list)
  /\ (snd (SportsClient_get_market_types log)
       = (log ++ [mkRequest "GET" "/sports/market-types" None])%list)
  /\ (forall params,
       (~ In "self" (map fst params) ->
        snd (TagsClient_list params log)
        = (log ++ [mkRequest "GET" "/tags" (Some params)])%list)
       /\ (In "self" (map fst params) ->
           snd (TagsClient_list params log) = log
           /\ exists msg,
                fst (TagsClient_list params log) = Raise (PyError "TypeError" msg)))
  /\ (forall tag_id,
       snd (TagsClient_get_by_id tag_id log)
       = (log ++ [mkRequest "GET" ("/tags/" ++ tag_id) None])%list)
  /\ (forall slug,
       snd (TagsClient_get_by_slug slug log)
       = (log ++ [mkRequest "GET" ("/tags/slug/" ++ slug) None])%list)
  /\ (forall tag_id,
       snd (TagsClient_get_related_by_id tag_id log)
       = (log ++ [mkRequest "GET" ("/tags-related-tag-id/" ++ tag_id) None])%list)
  /\ (forall slug,
       snd (TagsClient_get_related_by_slug slug log)
       = (log ++ [mkRequest "GET" ("/tags-related-tag-slug/" ++ slug) None])%list)
  /\ (forall tag_id,
       snd (TagsClient_get_tags_related_to_id tag_id log)
       = (log ++ [mkRequest "GET" ("/tags/" ++ tag_id ++ "/related") None])%list)
  /\ (forall slug,
       snd (TagsClient_get_tags_related_to_slug slug log)
       = (log ++ [mkRequest "GET" ("/tags/slug/" ++ slug ++ "/related") None])%list)
  /\ (forall params,
       (~ In "self" (map fst params) ->
        snd (EventsClient_list params log)
        = (log ++ [mkRequest "GET" "/events" (Some params)])%list)
       /\ (In "self" (map fst params) ->
           snd (EventsClient_list params log) = log
           /\ exists msg,
                fst (EventsClient_list params log) = Raise (PyError "TypeError" msg)))
  /\ (forall event_id,
       snd (EventsClient_get_by_id event_id log)
       = (log ++ [mkRequest "GET" ("/events/" ++ event_id) None])%list)
  /\ (forall event_id,
       snd (EventsClient_get_tags event_id log)
       = (log ++ [mkRequest "GET" ("/events/" ++ event_id ++ "/tags") None])%list)
  /\ (forall slug,
       snd (EventsClient_get_by_slug slug log)
       = (log ++ [mkRequest "GET" ("/events/slug/" ++ slug) None])%list)
  /\ (forall params,
       (~ In "self" (map fst params) ->
        snd (MarketsClient_list params log)
        = (log ++ [mkRequest "GET" "/markets" (Some params)])%list)
       /\ (In "self" (map fst params) ->
           snd (MarketsClient_list params log) = log
           /\ exists msg,
                fst (MarketsClient_list params log) = Raise (PyError "TypeError" msg)))
  /\ (forall market_id,
       snd (MarketsClient_get_by_id market_id log)
       = (log ++ [mkRequest "GET" ("/markets/" ++ market_id) None])%list)
  /\ (forall market_id,
       snd (MarketsClient_get_tags market_id log)
       = (log ++ [mkRequest "GET" ("/markets/" ++ market_id ++ "/tags") None])%list)
  /\ (forall slug,
       snd (MarketsClient_get_by_slug slug log)
       = (log ++ [mkRequest "GET" ("/markets/slug/" ++ slug) None])%list)
  /\ (forall params,
       (~ In "self" (map fst params) ->
        snd (SeriesClient_list params log)
        = (log ++ [mkRequest "GET" "/series" (Some params)])%list)
       /\ (In "self" (map fst params) ->
           snd (SeriesClient_list params log) = log
           /\ exists msg,
                fst (SeriesClient_list params log) = Raise (PyError "TypeError" msg)))
  /\ (forall series_id,
       snd (SeriesClient_get_by_id series_id log)
       = (log ++ [mkRequest "GET" ("/series/" ++ series_id) None])%list)
  /\ (forall params,
       (~ In "self" (map fst params) ->
        snd (CommentsClient_list params log)
        = (log ++ [mkRequest "GET" "/comments" (Some params)])%list)
       /\ (In "self" (map fst params) ->
           snd (CommentsClient_list params log) = log
           /\ exists msg,
                fst (CommentsClient_list params log) = Raise (PyError "TypeError" msg)))
  /\ (forall comment_id,
       snd (CommentsClient_get_by_id comment_id log)
       = (log ++ [mkRequest "GET" ("/comments/" ++ comment_id) None])%list)
  /\ (forall address,
       snd (CommentsClient_get_by_user address log)
       = (log ++ [mkRequest "GET" ("/comments/user/" ++ address) None])%list)
  /\ (forall address,
       snd (ProfilesClient_get_by_address address log)
       = (log ++ [mkRequest "GET" ("/profiles/" ++ address) None])%list)
  /\ (snd (GammaClient_get_status log)
       = (log ++ [mkRequest "GET" "/status" None])%list).
Proof.
  repeat match goal with
         | |- _ /\ _ => split
         | |- forall _, _ => intro
         end;
    first [ apply MarketsClient_get_by_slug_log
          | match goal with
            | H : ~ In "self" _ |- _ =>
                autounfold with methods;
                rewrite (keywords_bound _ _ _ _ (not_self _ H));
                rewrite bind_lift_log; apply request_log
            | H : In "self" _ |- _ =>
                autounfold with methods;
                destruct (bind_keywords_raise ["self"] _ "self"
                            (or_introl eq_refl) H) as [msg E];
                rewrite E; simpl; first [reflexivity | exists msg; reflexivity]
            end
          | autounfold with methods; rewrite ?bind_lift_log; apply request_log ].
Qed.

(** X2: an error [_request] raises goes through every method of the
    sub-clients, and through [get_status], as it is: the method raises
    that same error, with its status, and returns nothing.  For the
    methods that take filters, this is for the filters the call binds,
    those without one named [self]. *)
Theorem subclient_methods_propagate_errors (log : list Request) (e : exn) :
  (forall params,
       ~ In "self" (map fst params) ->
       fst (GammaClient__request "GET" "/teams" (Some params) log) = Raise e ->
       fst (SportsClient_list_teams params log) = Raise e)
  /\ (fst (GammaClient__request "GET" "/sports" None log) = Raise e ->
       fst (SportsClient_get_metadata log) = Raise e)
  /\ (fst (GammaClient__request "GET" "/sports/market-types" None log) = Raise e ->
       fst (SportsClient_get_market_types log) = Raise e)
  /\ (forall params,
       ~ In "self" (map fst params) ->
       fst (GammaClient__request "GET" "/tags" (Some params) log) = Raise e ->
       fst (TagsClient_list params log) = Raise e)
  /\ (forall tag_id,
       fst (GammaClient__request "GET" ("/tags/" ++ tag_id) None log) = Raise e ->
       fst (TagsClient_get_by_id tag_id log) = Raise e)
  /\ (forall slug,
       fst (GammaClient__request "GET" ("/tags/slug/" ++ slug) None log) = Raise e ->
       fst (TagsClient_get_by_slug slug log) = Raise e)
  /\ (forall tag_id,
       fst (GammaClient__request "GET" ("/tags-related-tag-id/" ++ tag_id) None log) = Raise e ->
       fst (TagsClient_get_related_by_id tag_id log) = Raise e)
  /\ (forall slug,
       fst (GammaClient__request "GET" ("/tags-related-tag-slug/" ++ slug) None log) = Raise e ->
       fst (TagsClient_get_related_by_slug slug log) = Raise e)
  /\ (forall tag_id,
       fst (GammaClient__request "GET" ("/tags/" ++ tag_id ++ "/related") None log) = Raise e ->
       fst (TagsClient_get_tags_related_to_id tag_id log) = Raise e)
  /\ (forall slug,
       fst (GammaClient__request "GET" ("/tags/slug/" ++ slug ++ "/related") None log) = Raise e ->
       fst (TagsClient_get_tags_related_to_slug slug log) = Raise e)
  /\ (forall params,
       ~ In "self" (map fst params) ->
       fst (GammaClient__request "GET" "/events" (Some params) log) = Raise e ->
       fst (EventsClient_list params log) = Raise e)
  /\ (forall event_id,
       fst (GammaClient__request "GET" ("/events/" ++ event_id) None log) = Raise e ->
       fst (EventsClient_get_by_id event_id log) = Raise e)
  /\ (forall event_id,
       fst (GammaClient__request "GET" ("/events/" ++ event_id ++ "/tags") None log) = Raise e ->
       fst (EventsClient_get_tags event_id log) = Raise e)
  /\ (forall slug,
       fst (GammaClient__request "GET" ("/events/slug/" ++ slug) None log) = Raise e ->
       fst (EventsClient_get_by_slug slug log) = Raise e)
  /\ (forall params,
       ~ In "self" (map fst params) ->
       fst (GammaClient__request "GET" "/markets" (Some params) log) = Raise e ->
       fst (MarketsClient_list params log) = Raise e)
  /\ (forall market_id,
       fst (GammaClient__request "GET" ("/markets/" ++ market_id) None log) = Raise e ->
       fst (MarketsClient_get_by_id market_id log) = Raise e)
  /\ (forall market_id,
       fst (GammaClient__request "GET" ("/markets/" ++ market_id ++ "/tags") None log) = Raise e ->
       fst (MarketsClient_get_tags market_id log) = Raise e)
  /\ (forall slug,
       fst (GammaClient__request "GET" ("/markets/slug/" ++ slug) None log) = Raise e ->
       fst (MarketsClient_get_by_slug slug log) = Raise e)
  /\ (forall params,
       ~ In "self" (map fst params) ->
       fst (GammaClient__request "GET" "/series" (Some params) log) = Raise e ->
       fst (SeriesClient_list params log) = Raise e)
  /\ (forall series_id,
       fst (GammaClient__request "GET" ("/series/" ++ series_id) None log) = Raise e ->
       fst (SeriesClient_get_by_id series_id log) = Raise e)
  /\ (forall params,
       ~ In "self" (map fst params) ->
       fst (GammaClient__request "GET" "/comments" (Some params) log) = Raise e ->
       fst (CommentsClient_list params log) = Raise e)
  /\ (forall comment_id,
       fst (GammaClient__request "GET" ("/comments/" ++ comment_id) None log) = Raise e ->
       fst (CommentsClient_get_by_id comment_id log) = Raise e)
  /\ (forall address,
       fst (GammaClient__request "GET" ("/comments/user/" ++ address) None log) = Raise e ->
       fst (CommentsClient_get_by_user address log) = Raise e)
  /\ (forall address,
       fst (GammaClient__request "GET" ("/profiles/" ++ address) None log) = Raise e ->
       fst (ProfilesClient_get_by_address address log) = Raise e)
  /\ (fst (GammaClient__request "GET" "/status" None log) = Raise e ->
       fst (GammaClient_get_status log) = Raise e).
Proof.
  repeat match goal with |- _ /\ _ => split end; intros;
    first [ unfold MarketsClient_get_by_slug; apply bind_raise_fst; assumption
          | match goal with
            | H : ~ In "self" _ |- _ =>
                autounfold with methods;
                rewrite (keywords_bound _ _ _ _ (not_self _ H));
                apply bind_raise_fst; assumption
            end
          | autounfold with methods; first [ apply bind_raise_fst | idtac ];
            assumption ].
Qed.

(** X3: the data of a response is decoded outside the [try] of
    [_request], so what the decoding raises is not an error of the SDK.
    When [_request] returns anything but an object (a list, a string of
    a response that is not JSON, a number, null), the methods that build
    one entity raise [TypeError] and [get_market_types] raises
    [AttributeError]: neither is a [GammaError].  [get_by_slug] of
    Markets does so on anything but an object and a list, and on a list
    whose first item is not an object. *)
Theorem decoding_errors_are_not_sdk_errors (log : list Request) (data : pyvalue) :
  (forall kwargs, data <> PyDict kwargs) ->
  (fst (GammaClient__request "GET" "/sports/market-types" None log) = Ok data ->
   exists msg, fst (SportsClient_get_market_types log) = Raise (PyError "AttributeError" msg))
  /\ (forall tag_id,
       fst (GammaClient__request "GET" ("/tags/" ++ tag_id) None log) = Ok data ->
       exists msg, fst (TagsClient_get_by_id tag_id log) = Raise (PyError "TypeError" msg))
  /\ (forall slug,
       fst (GammaClient__request "GET" ("/tags/slug/" ++ slug) None log) = Ok data ->
       exists msg, fst (TagsClient_get_by_slug slug log) = Raise (PyError "TypeError" msg))
  /\ (forall event_id,
       fst (GammaClient__request "GET" ("/events/" ++ event_id) None log) = Ok data ->
       exists msg, fst (EventsClient_get_by_id event_id log) = Raise (PyError "TypeError" msg))
  /\ (forall slug,
       fst (GammaClient__request "GET" ("/events/slug/" ++ slug) None log) = Ok data ->
       exists msg, fst (EventsClient_get_by_slug slug log) = Raise (PyError "TypeError" msg))
  /\ (forall market_id,
       fst (GammaClient__request "GET" ("/markets/" ++ market_id) None log) = Ok data ->
       exists msg, fst (MarketsClient_get_by_id market_id log) = Raise (PyError "TypeError" msg))
  /\ (forall series_id,
       fst (GammaClient__request "GET" ("/series/" ++ series_id) None log) = Ok data ->
       exists msg, fst (SeriesClient_get_by_id series_id log) = Raise (PyError "TypeError" msg))
  /\ (forall comment_id,
       fst (GammaClient__request "GET" ("/comments/" ++ comment_id) None log) = Ok data ->
       exists msg, fst (CommentsClient_get_by_id comment_id log) = Raise (PyError "TypeError" msg))
  /\ (forall address,
       fst (GammaClient__request "GET" ("/profiles/" ++ address) None log) = Ok data ->
       exists msg, fst (ProfilesClient_get_by_address address log) = Raise (PyError "TypeError" msg))
  /\ (forall slug,
       (forall items, data <> PyList items) ->
       fst (GammaClient__request "GET" ("/markets/slug/" ++ slug) None log) = Ok data ->
       exists msg, fst (MarketsClient_get_by_slug slug log) = Raise (PyError "TypeError" msg))
  /\ (forall slug rest,
       fst (GammaClient__request "GET" ("/markets/slug/" ++ slug) None log)
       = Ok (PyList (data :: rest)) ->
       exists msg, fst (MarketsClient_get_by_slug slug log) = Raise (PyError "TypeError" msg))
  /\ (forall cls msg, is_GammaError (PyError cls msg) = false).
Proof.
  intros Hdata. repeat split; intros;
    try (autounfold with methods;
         erewrite bind_lift_fst by eassumption;
         first [ rewrite (new_not_dict _ data Hdata); eexists; reflexivity
               | destruct data; try (eexists; reflexivity);
                 exfalso; eapply Hdata; reflexivity ]).
  - rewrite (MarketsClient_get_by_slug_data slug log data) by assumption.
    destruct data as [| | | | | items |];
      try (eexists; reflexivity); exfalso;
      [eapply H | eapply Hdata]; reflexivity.
  - rewrite (MarketsClient_get_by_slug_data slug log _ H).
    rewrite (new_not_dict _ data Hdata). eexists. reflexivity.
Qed.

(** X4: the methods that return a list of entities, on a response that
    is a list, return every item decoded, in the order of the response,
    or nothing: the result is a list exactly when each item decodes, and
    it is then the list of the decoded items; otherwise the method raises
    the error of the first item that does not decode.  For the methods
    that take filters, this is for the filters the call binds, those
    without one named [self]. *)
Theorem list_methods_all_or_nothing (log : list Request) :
  let all_or_nothing :=
    fun (m : model) (items : list pyvalue) (outcome : result (list (record m))) =>
      (forall entities,
         outcome = Ok entities
         <-> Forall2 (fun item entity => new m item = Ok entity) items entities)
      /\ (forall e,
            outcome = Raise e
            <-> exists before item after,
                  items = (before ++ item :: after)%list
                  /\ Forall (fun i => exists entity, new m i = Ok entity) before
                  /\ new m item = Raise e) in
  (forall params items,
       ~ In "self" (map fst params) ->
       fst (GammaClient__request "GET" "/teams" (Some params) log) = Ok (PyList items) ->
       all_or_nothing Team items (fst (SportsClient_list_teams params log)))
  /\ (forall items,
       fst (GammaClient__request "GET" "/sports" None log) = Ok (PyList items) ->
       all_or_nothing SportMetadata items (fst (SportsClient_get_metadata log)))
  /\ (forall params items,
       ~ In "self" (map fst params) ->
       fst (GammaClient__request "GET" "/tags" (Some params) log) = Ok (PyList items) ->
       all_or_nothing Tag items (fst (TagsClient_list params log)))
  /\ (forall tag_id items,
       fst (GammaClient__request "GET" ("/tags/" ++ tag_id ++ "/related") None log) = Ok (PyList items) ->
       all_or_nothing Tag items (fst (TagsClient_get_tags_related_to_id tag_id log)))
  /\ (forall slug items,
       fst (GammaClient__request "GET" ("/tags/slug/" ++ slug ++ "/related") None log) = Ok (PyList items) ->
       all_or_nothing Tag items (fst (TagsClient_get_tags_related_to_slug slug log)))
  /\ (forall params items,
       ~ In "self" (map fst params) ->
       fst (GammaClient__request "GET" "/events" (Some params) log) = Ok (PyList items) ->
       all_or_nothing Event items (fst (EventsClient_list params log)))
  /\ (forall event_id items,
       fst (GammaClient__request "GET" ("/events/" ++ event_id ++ "/tags") None log) = Ok (PyList items) ->
       all_or_nothing Tag items (fst (EventsClient_get_tags event_id log)))
  /\ (forall params items,
       ~ In "self" (map fst params) ->
       fst (GammaClient__request "GET" "/markets" (Some params) log) = Ok (PyList items) ->
       all_or_nothing Market items (fst (MarketsClient_list params log)))
  /\ (forall market_id items,
       fst (GammaClient__request "GET" ("/markets/" ++ market_id ++ "/tags") None log) = Ok (PyList items) ->
       all_or_nothing Tag items (fst (MarketsClient_get_tags market_id log)))
  /\ (forall params items,
       ~ In "self" (map fst params) ->
       fst (GammaClient__request "GET" "/series" (Some params) log) = Ok (PyList items) ->
       all_or_nothing Series items (fst (SeriesClient_list params log)))
  /\ (forall params items,
       ~ In "self" (map fst params) ->
       fst (GammaClient__request "GET" "/comments" (Some params) log) = Ok (PyList items) ->
       all_or_nothing Comment items (fst (CommentsClient_list params log)))
  /\ (forall address items,
       fst (GammaClient__request "GET" ("/comments/user/" ++ address) None log) = Ok (PyList items) ->
       all_or_nothing Comment items (fst (CommentsClient_get_by_user address log))).
Proof.
  intros all_or_nothing.
  assert (H : forall m items, all_or_nothing m items (new_each m (PyList items))).
  { intros m items. split; intros; [apply map_result_ok | apply map_result_raise]. }
  repeat match goal with |- _ /\ _ => split end; intros;
    autounfold with methods;
    try match goal with
        | Hs : ~ In "self" _ |- _ =>
            rewrite (keywords_bound _ _ _ _ (not_self _ Hs))
        end;
    (erewrite bind_lift_fst by eassumption); apply H.
Qed.

(** X5: the methods that return a list of entities, on a response that
    is not a list.  An empty object and an empty string are iterated as
    empty: the method returns the empty list.  An object with a field and
    a string with a character are iterated over their keys and their
    characters, none of which is a mapping, and null, booleans and numbers
    are not iterable: the method raises [TypeError].  For the methods
    that take filters, this is for the filters the call binds, those
    without one named [self]. *)
Theorem list_methods_on_non_list (log : list Request) (data : pyvalue) :
  let on_non_list :=
    fun (m : model) (outcome : result (list (record m))) =>
      match data with
      | PyList _ => True
      | PyDict [] | PyStr EmptyString => outcome = Ok []
      | _ => exists msg, outcome = Raise (PyError "TypeError" msg)
      end in
  (forall params,
       ~ In "self" (map fst params) ->
       fst (GammaClient__request "GET" "/teams" (Some params) log) = Ok data ->
       on_non_list Team (fst (SportsClient_list_teams params log)))
  /\ (fst (GammaClient__request "GET" "/sports" None log) = Ok data ->
       on_non_list SportMetadata (fst (SportsClient_get_metadata log)))
  /\ (forall params,
       ~ In "self" (map fst params) ->
       fst (GammaClient__request "GET" "/tags" (Some params) log) = Ok data ->
       on_non_list Tag (fst (TagsClient_list params log)))
  /\ (forall tag_id,
       fst (GammaClient__request "GET" ("/tags/" ++ tag_id ++ "/related") None log) = Ok data ->
       on_non_list Tag (fst (TagsClient_get_tags_related_to_id tag_id log)))
  /\ (forall slug,
       fst (GammaClient__request "GET" ("/tags/slug/" ++ slug ++ "/related") None log) = Ok data ->
       on_non_list Tag (fst (TagsClient_get_tags_related_to_slug slug log)))
  /\ (forall params,
       ~ In "self" (map fst params) ->
       fst (GammaClient__request "GET" "/events" (Some params) log) = Ok data ->
       on_non_list Event (fst (EventsClient_list params log)))
  /\ (forall event_id,
       fst (GammaClient__request "GET" ("/events/" ++ event_id ++ "/tags") None log) = Ok data ->
       on_non_list Tag (fst (EventsClient_get_tags event_id log)))
  /\ (forall params,
       ~ In "self" (map fst params) ->
       fst (GammaClient__request "GET" "/markets" (Some params) log) = Ok data ->
       on_non_list Market (fst (MarketsClient_list params log)))
  /\ (forall market_id,
       fst (GammaClient__request "GET" ("/markets/" ++ market_id ++ "/tags") None log) = Ok data ->
       on_non_list Tag (fst (MarketsClient_get_tags market_id log)))
  /\ (forall params,
       ~ In "self" (map fst params) ->
       fst (GammaClient__request "GET" "/series" (Some params) log) = Ok data ->
       on_non_list Series (fst (SeriesClient_list params log)))
  /\ (forall params,
       ~ In "self" (map fst params) ->
       fst (GammaClient__request "GET" "/comments" (Some params) log) = Ok data ->
       on_non_list Comment (fst (CommentsClient_list params log)))
  /\ (forall address,
       fst (GammaClient__request "GET" ("/comments/user/" ++ address) None log) = Ok data ->
       on_non_list Comment (fst (CommentsClient_get_by_user address log))).
Proof.
  intros on_non_list.
  assert (H : forall m, on_non_list m (new_each m data)).
  { intros m. unfold on_non_list, new_each.
    destruct data as [| b | n | f | [| c s] | items | [| [k v] d]]; simpl;
      try exact I; try reflexivity; eexists; reflexivity. }
  repeat match goal with |- _ /\ _ => split end; intros;
    autounfold with methods;
    try match goal with
        | Hs : ~ In "self" _ |- _ =>
            rewrite (keywords_bound _ _ _ _ (not_self _ Hs))
        end;
    (erewrite bind_lift_fst by eassumption); apply H.
Qed.

(* =================================================================== *)
(** ** Further properties: [search], the constructors, the paths *)
(* =================================================================== *)





(** X15: the base URL a client is built with is stored without the
    slashes at its end, and only those are removed: the stored URL does
    not end with a slash, and the given one, or the default when none is
    given, is the stored one followed by slashes.  Building a client on
    the stored URL stores it again; the timeout is stored as given; the
    non-blocking client stores the same. *)
Theorem init_strips_trailing_slashes (url : option string) (seconds : option Z) :
  let given := match url with Some u => u | None => BASE_URL end in
  let client := GammaClient___init__ url seconds in
  last_char (base_url client) <> Some slash
  /\ (exists slashes,
        given = base_url client ++ slashes /\ all_in "/" slashes = true)
  /\ GammaClient___init__ (Some (base_url client)) seconds = client
  /\ timeout client = match seconds with Some t => t | None => DEFAULT_TIMEOUT end
  /\ AsyncGammaClient___init__ url seconds = client.
Proof.
  intros given client. unfold client, GammaClient___init__. simpl. fold given.
  repeat split.
  - intros H. apply rstrip_last_char in H. discriminate.
  - apply rstrip_decompose.
  - f_equal. apply rstrip_id. intros c Hc. eapply rstrip_last_char. exact Hc.
Qed.

(** X16: an identifier goes into the path as it is, slashes included, so
    the methods by identifier reach the paths of other methods: with an
    identifier that begins with [slug/], [get_by_id] of Tags and of
    Events is [get_by_slug], and the Tags related to an identifier are
    those related to a slug; [get_by_id] of Markets makes the call of
    [get_by_slug]; and [get_by_id] of Events, with [/tags] after the
    identifier, makes the call of [get_tags]. *)
Theorem identifiers_are_not_escaped (s : string) (log : list Request) :
  TagsClient_get_by_id ("slug/" ++ s) log = TagsClient_get_by_slug s log
  /\ EventsClient_get_by_id ("slug/" ++ s) log = EventsClient_get_by_slug s log
  /\ TagsClient_get_tags_related_to_id ("slug/" ++ s) log
     = TagsClient_get_tags_related_to_slug s log
  /\ snd (MarketsClient_get_by_id ("slug/" ++ s) log)
     = snd (MarketsClient_get_by_slug s log)
  /\ snd (EventsClient_get_by_id (s ++ "/tags") log)
     = snd (EventsClient_get_tags s log).
Proof.
  repeat split.
  - rewrite MarketsClient_get_by_slug_log.
    unfold MarketsClient_get_by_id. rewrite bind_lift_log. apply request_log.
  - unfold EventsClient_get_by_id, EventsClient_get_tags.
    rewrite !bind_lift_log, !request_log. reflexivity.
Qed.

End Client.

(* ===================================================================== *)
(** ** The code on concrete inputs *)
(* ===================================================================== *)

Example strip_quoted :
  strip (String dquote EmptyString) (quoted "OK") = "OK".
Proof. reflexivity. Qed.

Example strip_every_surrounding_quote :
  strip (String dquote EmptyString) (quoted (quoted "OK")) = "OK".
Proof. reflexivity. Qed.

Example strip_keeps_inner_quote :
  strip (String dquote EmptyString) ("a" ++ quoted "b" ++ "c")
  = "a" ++ quoted "b" ++ "c".
Proof. reflexivity. Qed.

Example split_path : split slash "market/a/b" = ["market"; "a"; "b"].
Proof. reflexivity. Qed.

Example split_empty : split slash EmptyString = [EmptyString].
Proof. reflexivity. Qed.

Example split_double_slash :
  split slash "market//b" = ["market"; EmptyString; "b"].
Proof. reflexivity. Qed.

Example contains_json_with_charset :
  contains "application/json" "application/json; charset=utf-8" = true.
Proof. reflexivity. Qed.

Example contains_is_case_sensitive :
  contains "application/json" "Application/JSON" = false.
Proof. reflexivity. Qed.

Example extract_slug_trailing_slash :
  GammaClient__extract_slug_from_url urlparse_basic
    "https://polymarket.com/event/fed-decision/?tid=1" = Some "fed-decision".
Proof. reflexivity. Qed.

Example extract_slug_other_section :
  GammaClient__extract_slug_from_url urlparse_basic
    "https://polymarket.com/markets/fed-decision" = None.
Proof. reflexivity. Qed.

Example extract_slug_no_second_segment :
  GammaClient__extract_slug_from_url urlparse_basic
    "https://polymarket.com/market//" = None.
Proof. reflexivity. Qed.

(** The market is found: one call. *)
Example resolve_url_market_found :
  GammaClient_resolve_url json_loads_table urlparse_basic status_message_plain
    record_raw init_raw remote_market_list "https://site/market/bare" []
  = (Ok (Some (inl [("slug", PyStr "b")])),
     [mkRequest "GET" "/markets/slug/bare" None]).
Proof. reflexivity. Qed.

(** The market is missing with status 404: the event is looked up. *)
Example resolve_url_falls_back_on_404 :
  GammaClient_resolve_url json_loads_table urlparse_basic status_message_plain
    record_raw init_raw remote_event_after_404
    "https://polymarket.com/event/fed-decision" []
  = (Ok (Some (inr [])),
     [mkRequest "GET" "/markets/slug/fed-decision" None;
      mkRequest "GET" "/events/slug/fed-decision" None]).
Proof. reflexivity. Qed.

(** Neither lookup reaches the remote: [None], after both. *)
Example resolve_url_both_fail :
  GammaClient_resolve_url json_loads_table urlparse_basic status_message_plain
    record_raw init_raw remote_misc "https://site/market/a/b" []
  = (Ok None,
     [mkRequest "GET" "/markets/slug/b" None;
      mkRequest "GET" "/events/slug/b" None]).
Proof. reflexivity. Qed.

(* ===================================================================== *)
(** ** The properties on the examples *)
(* ===================================================================== *)

Local Abbreviation request_on remote :=
  (GammaClient__request json_loads_table status_message_plain remote).
Local Abbreviation extract_slug :=
  (GammaClient__extract_slug_from_url urlparse_basic).
Local Abbreviation resolve_url_on remote :=
  (GammaClient_resolve_url json_loads_table urlparse_basic
     status_message_plain record_raw init_raw remote).
Local Abbreviation async_resolve_url :=
  (AsyncGammaClient_resolve_url json_loads_table urlparse_basic
     status_message_plain record_raw init_raw).

(** The URL of an event whose slug no market has: [resolve_url] returns
    [None] after the Market lookup, although the Event lookup, made next,
    finds the event. *)
Lemma resolve_url_empty_list_skips_event_lookup_witness :
  let url := "https://polymarket.com/event/fed-decision" in
  let market_lookup := mkRequest "GET" "/markets/slug/fed-decision" None in
  extract_slug url = Some "fed-decision"
  /\ fst (request_on remote_event_only "GET" "/markets/slug/fed-decision" None [])
     = Ok (PyList [])
  /\ resolve_url_on remote_event_only url [] = (Ok None, [market_lookup])
  /\ run_until_complete remote_event_only (async_resolve_url url) []
     = (Ok None, [market_lookup])
  /\ fst (EventsClient_get_by_slug json_loads_table status_message_plain
            record_raw init_raw remote_event_only "fed-decision" [market_lookup])
     = Ok [].
Proof.
  intros url market_lookup.
  assert (He : extract_slug url = Some "fed-decision") by reflexivity.
  assert (Hd : fst (request_on remote_event_only "GET"
                      ("/markets/slug/" ++ "fed-decision") None [])
               = Ok (PyList [])) by reflexivity.
  split; [exact He |]. split; [exact Hd |].
  destruct (resolve_url_empty_list_skips_event_lookup
              json_loads_table urlparse_basic status_message_plain
              record_raw init_raw remote_event_only url "fed-decision" [] He Hd)
    as [Hsync Hasync].
  split; [exact Hsync |]. split; [exact Hasync | reflexivity].
Defined.

(** A list of one market, an empty list and a bare market: [get_by_slug]
    returns the market, [None], and the market. *)
Lemma markets_get_by_slug_shapes_witness :
  let market := [("slug", PyStr "b")] in
  let get_by_slug :=
    MarketsClient_get_by_slug json_loads_table status_message_plain
      record_raw init_raw remote_market_list in
  fst (request_on remote_market_list "GET" "/markets/slug/b" None [])
  = Ok (PyList [PyDict market])
  /\ fst (get_by_slug "b" []) = Ok (Some market)
  /\ fst (request_on remote_market_list "GET" "/markets/slug/none" None [])
     = Ok (PyList [])
  /\ fst (get_by_slug "none" []) = Ok None
  /\ fst (request_on remote_market_list "GET" "/markets/slug/bare" None [])
     = Ok (PyDict market)
  /\ fst (get_by_slug "bare" []) = Ok (Some market).
Proof.
  intros market get_by_slug.
  assert (Hlist : fst (request_on remote_market_list "GET"
                         ("/markets/slug/" ++ "b") None [])
                  = Ok (PyList [PyDict market])) by reflexivity.
  assert (Hnone : fst (request_on remote_market_list "GET"
                         ("/markets/slug/" ++ "none") None [])
                  = Ok (PyList [])) by reflexivity.
  assert (Hbare : fst (request_on remote_market_list "GET"
                         ("/markets/slug/" ++ "bare") None [])
                  = Ok (PyDict market)) by reflexivity.
  pose proof (markets_get_by_slug_shapes
                json_loads_table status_message_plain record_raw init_raw
                remote_market_list "b" [] _ Hlist) as [Hfirst _].
  pose proof (markets_get_by_slug_shapes
                json_loads_table status_message_plain record_raw init_raw
                remote_market_list "none" [] _ Hnone) as [_ [Hempty _]].
  pose proof (markets_get_by_slug_shapes
                json_loads_table status_message_plain record_raw init_raw
                remote_market_list "bare" [] _ Hbare) as [_ [_ [Hobject _]]].
  split; [exact Hlist |].
  split; [exact (Hfirst (PyDict market) [] eq_refl) |].
  split; [exact Hnone |].
  split; [exact (Hempty eq_refl) |].
  split; [exact Hbare |].
  exact (Hobject market eq_refl).
Defined.

(** A path of one segment, and a path that begins with neither [market]
    nor [event]: [ValidationError], and no call. *)
Lemma resolve_url_validation_error_witness :
  let short := "https://site/invalid" in
  let other := "https://site/profile/will-barron" in
  (length (split slash (strip "/" "/invalid")) < 2)%nat
  /\ resolve_url_on remote_misc short []
     = (Raise (ValidationError "Invalid Polymarket URL: https://site/invalid"), [])
  /\ async_resolve_url short
     = Throw (ValidationError "Invalid Polymarket URL: https://site/invalid")
  /\ hd EmptyString (split slash (strip "/" "/profile/will-barron")) = "profile"
  /\ fst (resolve_url_on remote_misc other [])
     = Raise (ValidationError
                "Invalid Polymarket URL: https://site/profile/will-barron").
Proof.
  intros short other.
  assert (Hlen : (length (split slash (strip "/" "/invalid")) < 2)%nat)
    by (simpl; lia).
  assert (Hhd : hd EmptyString (split slash (strip "/" "/profile/will-barron"))
                = "profile") by reflexivity.
  assert (Hno : hd EmptyString (split slash (strip "/" "/profile/will-barron"))
                <> "market"
                /\ hd EmptyString (split slash (strip "/" "/profile/will-barron"))
                   <> "event") by (rewrite Hhd; split; discriminate).
  destruct (resolve_url_validation_error
              json_loads_table urlparse_basic status_message_plain
              record_raw init_raw remote_misc short []
              (or_intror (or_intror (or_introl Hlen)))) as [Hsync Hasync].
  destruct (resolve_url_validation_error
              json_loads_table urlparse_basic status_message_plain
              record_raw init_raw remote_misc other []
              (or_intror (or_intror (or_intror Hno))))
    as [Hother _].
  split; [exact Hlen |]. split; [exact Hsync |]. split; [exact Hasync |].
  split; [exact Hhd |]. rewrite Hother. reflexivity.
Defined.

(** A market that does not exist: [NotFoundError] with status 404. *)
Lemma request_404_not_found_witness :
  let r := mkResponse 404 (Some "text/plain; charset=utf-8") "Not Found" in
  remote_misc [] (mkRequest "GET" "/markets/0" None) = Responded r
  /\ status_code r = 404%Z
  /\ request_on remote_misc "GET" "/markets/0" None []
     = (Raise (NotFoundError "Resource not found: /markets/0" (Some 404%Z)),
        [mkRequest "GET" "/markets/0" None]).
Proof.
  intros r.
  assert (Hr : remote_misc [] (mkRequest "GET" "/markets/0" None) = Responded r)
    by reflexivity.
  assert (H404 : status_code r = 404%Z) by reflexivity.
  split; [exact Hr |]. split; [exact H404 |].
  exact (proj1 (request_404_not_found
                  json_loads_table status_message_plain remote_misc
                  "GET" "/markets/0" None [] r Hr H404)).
Defined.

(** A server error, a host that cannot be reached and a body that is not
    JSON: a [GammaAPIError] each, with status 500 and the body for the
    first. *)
Lemma request_failures_wrapped_witness :
  let r := mkResponse 500 (Some "text/plain; charset=utf-8")
                      "Internal Server Error" in
  let page := mkResponse 200 (Some "application/json") "<html>" in
  remote_misc [] (mkRequest "GET" "/series" None) = Responded r
  /\ status_code r <> 404%Z
  /\ (status_code r < 200 \/ 299 < status_code r)%Z
  /\ fst (request_on remote_misc "GET" "/series" None [])
     = Raise (GammaAPIError "API Error: Server error" (Some 500%Z)
                            (Some "Internal Server Error"))
  /\ remote_misc [] (mkRequest "GET" "/comments" None)
     = Failed "ConnectError" "All connection attempts failed"
  /\ fst (request_on remote_misc "GET" "/comments" None [])
     = Raise (GammaAPIError "Unexpected Error: All connection attempts failed"
                            None None)
  /\ remote_misc [] (mkRequest "GET" "/teams" None) = Responded page
  /\ json_loads_table (text page) = inl "Expecting value"
  /\ fst (request_on remote_misc "GET" "/teams" None [])
     = Raise (GammaAPIError "Unexpected Error: Expecting value" None None).
Proof.
  intros r page.
  assert (Hr : remote_misc [] (mkRequest "GET" "/series" None) = Responded r)
    by reflexivity.
  assert (H404 : status_code r <> 404%Z) by discriminate.
  assert (Hs : (status_code r < 200 \/ 299 < status_code r)%Z)
    by (right; reflexivity).
  assert (Hf : remote_misc [] (mkRequest "GET" "/comments" None)
               = Failed "ConnectError" "All connection attempts failed")
    by reflexivity.
  assert (Hp : remote_misc [] (mkRequest "GET" "/teams" None) = Responded page)
    by reflexivity.
  assert (Hps : (200 <= status_code page <= 299)%Z) by (simpl; lia).
  assert (Hj : json_loads_table (text page) = inl "Expecting value")
    by reflexivity.
  split; [exact Hr |]. split; [exact H404 |]. split; [exact Hs |].
  split; [exact (proj1 (request_failures_wrapped
                          json_loads_table status_message_plain remote_misc
                          "GET" "/series" None []) r Hr H404 Hs) |].
  split; [exact Hf |].
  split; [exact (proj1 (proj2 (request_failures_wrapped
                          json_loads_table status_message_plain remote_misc
                          "GET" "/comments" None [])) _ _ Hf) |].
  split; [exact Hp |]. split; [exact Hj |].
  exact (proj1 (proj2 (proj2 (request_failures_wrapped
                          json_loads_table status_message_plain remote_misc
                          "GET" "/teams" None []))) page _ Hp Hps eq_refl Hj).
Defined.

(** The status endpoint answers with a quoted string: [get_status]
    returns it without its quotes.  The market types are JSON: the
    decoded object is returned. *)
Lemma request_success_decoding_witness :
  let r := mkResponse 200 (Some "text/plain; charset=utf-8") (quoted "OK") in
  let types := mkResponse 200 (Some "application/json") market_types_document in
  remote_misc [] (mkRequest "GET" "/status" None) = Responded r
  /\ (200 <= status_code r <= 299)%Z
  /\ contains "application/json" (headers_get_content_type r) = false
  /\ GammaClient_get_status json_loads_table status_message_plain remote_misc []
     = (Ok (PyStr "OK"), [mkRequest "GET" "/status" None])
  /\ remote_misc [] (mkRequest "GET" "/sports/market-types" None) = Responded types
  /\ fst (request_on remote_misc "GET" "/sports/market-types" None [])
     = Ok (PyDict [("marketTypes", PyList [PyStr "a"; PyStr "b"])]).
Proof.
  intros r types.
  assert (Hr : remote_misc [] (mkRequest "GET" "/status" None) = Responded r)
    by reflexivity.
  assert (Hs : (200 <= status_code r <= 299)%Z) by (simpl; lia).
  assert (Hc : contains "application/json" (headers_get_content_type r) = false)
    by reflexivity.
  assert (Ht : remote_misc [] (mkRequest "GET" "/sports/market-types" None)
               = Responded types) by reflexivity.
  assert (Hts : (200 <= status_code types <= 299)%Z) by (simpl; lia).
  split; [exact Hr |]. split; [exact Hs |]. split; [exact Hc |].
  destruct (request_success_decoding
              json_loads_table status_message_plain remote_misc
              "GET" "/status" None [] r Hr Hs) as [_ [Htext Hstatus]].
  destruct (request_success_decoding
              json_loads_table status_message_plain remote_misc
              "GET" "/sports/market-types" None [] types Ht Hts) as [Hjson _].
  split; [rewrite Hstatus; exact (proj1 (Htext Hc)) |].
  split; [exact Ht |].
  rewrite (Hjson eq_refl _ eq_refl). reflexivity.
Defined.

(** [search("Politics", limit=5)]: one GET on [/search] with [q] added.
    [search("Politics", self=1)]: [TypeError], and no call. *)
Lemma search_single_get_witness :
  ~ In "self" (map fst [("limit", PyInt 5)])
  /\ ~ In "query" (map fst [("limit", PyInt 5)])
  /\ snd (GammaClient_search json_loads_table status_message_plain remote_misc
            "Politics" [("limit", PyInt 5)] [])
     = [mkRequest "GET" "/search"
          (Some [("limit", PyInt 5); ("q", PyStr "Politics")])]
  /\ dict_lookup "limit" (dict_set "q" (PyStr "Politics") [("limit", PyInt 5)])
     = Some (PyInt 5)
  /\ In "self" (map fst [("self", PyInt 1)])
  /\ exists msg,
       GammaClient_search json_loads_table status_message_plain remote_misc
         "Politics" [("self", PyInt 1)] []
       = (Raise (PyError "TypeError" msg), []).
Proof.
  assert (Hs : ~ In "self" (map fst [("limit", PyInt 5)]))
    by (simpl; intros [H | []]; discriminate).
  assert (Hq : ~ In "query" (map fst [("limit", PyInt 5)]))
    by (simpl; intros [H | []]; discriminate).
  assert (Hin : In "self" (map fst [("self", PyInt 1)]))
    by (left; reflexivity).
  destruct (search_single_get
              json_loads_table status_message_plain remote_misc
              "Politics" [("limit", PyInt 5)] []) as [Hbound _].
  destruct (Hbound Hs Hq) as [_ [Hlog [_ Hkeep]]].
  destruct (search_single_get
              json_loads_table status_message_plain remote_misc
              "Politics" [("self", PyInt 1)] []) as [_ [Hcollide _]].
  split; [exact Hs |]. split; [exact Hq |]. split; [exact Hlog |].
  split; [rewrite (Hkeep "limit"); [reflexivity | discriminate] |].
  split; [exact Hin |]. exact (Hcollide (or_introl Hin)).
Defined.

(** A filter named [query]: [search] raises [TypeError] and makes no
    call, where one GET on [/search] was promised for every filter
    mapping. *)
Lemma search_filter_named_query_makes_no_request :
  let params := [("query", PyStr "Sports")] in
  let merged := dict_set "q" (PyStr "Politics") params in
  GammaClient_search json_loads_table status_message_plain remote_misc
    "Politics" params []
  = (Raise (PyError "TypeError" "got multiple values for argument 'query'"), [])
  /\ snd (GammaClient_search json_loads_table status_message_plain remote_misc
            "Politics" params [])
     <> [mkRequest "GET" "/search" (Some merged)]
  /\ run_until_complete remote_misc
       (AsyncGammaClient_search json_loads_table status_message_plain
          "Politics" params) []
     = (Raise (PyError "TypeError" "got multiple values for argument 'query'"), []).
Proof.
  intros params merged. split; [reflexivity |]. split; [| reflexivity].
  simpl. discriminate.
Defined.

(** The market types of the specification: [a] and [b] when the field is
    there, the empty list when the object is empty. *)
Lemma get_market_types_field_witness :
  let d := [("marketTypes", PyList [PyStr "a"; PyStr "b"])] in
  fst (request_on remote_misc "GET" "/sports/market-types" None [])
  = Ok (PyDict d)
  /\ fst (SportsClient_get_market_types json_loads_table status_message_plain
            remote_misc [])
     = Ok (PyList [PyStr "a"; PyStr "b"])
  /\ fst (request_on remote_no_types "GET" "/sports/market-types" None [])
     = Ok (PyDict [])
  /\ fst (SportsClient_get_market_types json_loads_table status_message_plain
            remote_no_types [])
     = Ok (PyList []).
Proof.
  intros d.
  assert (Hd : fst (request_on remote_misc "GET" "/sports/market-types" None [])
               = Ok (PyDict d)) by reflexivity.
  assert (He : fst (request_on remote_no_types "GET" "/sports/market-types"
                      None [])
               = Ok (PyDict [])) by reflexivity.
  destruct (get_market_types_field
              json_loads_table status_message_plain remote_misc [] d Hd)
    as [Hfield _].
  destruct (get_market_types_field
              json_loads_table status_message_plain remote_no_types [] [] He)
    as [_ [Habsent _]].
  split; [exact Hd |].
  split; [exact (Hfield (PyList [PyStr "a"; PyStr "b"]) eq_refl) |].
  split; [exact He |].
  exact (Habsent eq_refl).
Defined.

(** The path [/market/a/b]: the slug is [b], not [a], and both lookups
    are made with it. *)
Lemma resolve_url_slug_is_last_segment_witness :
  let url := "https://site/market/a/b" in
  let parsed := mkParseResult "https" "site" "/market/a/b"
                              EmptyString EmptyString EmptyString in
  urlparse_basic url = inr parsed
  /\ split slash (strip "/" (path parsed)) = ["market"; "a"; "b"]
  /\ extract_slug url = Some "b"
  /\ "b" <> EmptyString
  /\ snd (resolve_url_on remote_misc url [])
     = [mkRequest "GET" "/markets/slug/b" None;
        mkRequest "GET" "/events/slug/b" None].
Proof.
  intros url parsed.
  assert (Hp : urlparse_basic url = inr parsed) by reflexivity.
  assert (Hlen : (2 <= length (split slash (strip "/" (path parsed))))%nat)
    by (simpl; lia).
  assert (Hhd : hd EmptyString (split slash (strip "/" (path parsed))) = "market"
                \/ hd EmptyString (split slash (strip "/" (path parsed))) = "event")
    by (left; reflexivity).
  split; [exact Hp |]. split; [reflexivity |].
  destruct (resolve_url_slug_is_last_segment
              json_loads_table urlparse_basic status_message_plain
              record_raw init_raw remote_misc url parsed [] Hp Hlen Hhd)
    as [Hne [He _]].
  split; [exact He |]. split; [exact Hne | reflexivity].
Defined.

(* ===================================================================== *)
(** ** The further properties on the examples *)
(* ===================================================================== *)

(** A market that does not exist: [get_by_id] raises the [NotFoundError]
    of [_request]. *)
Lemma subclient_methods_propagate_errors_witness :
  let e := NotFoundError "Resource not found: /markets/0" (Some 404%Z) in
  fst (request_on remote_misc "GET" "/markets/0" None []) = Raise e
  /\ fst (MarketsClient_get_by_id json_loads_table status_message_plain
            record_raw init_raw remote_misc "0" [])
     = Raise e.
Proof.
  intros e.
  assert (Hr : fst (request_on remote_misc "GET" ("/markets/" ++ "0") None [])
               = Raise e) by reflexivity.
  split; [exact Hr |].
  pose proof (subclient_methods_propagate_errors
                json_loads_table status_message_plain record_raw init_raw
                remote_misc [] e) as H.
  decompose [and] H. auto.
Defined.

(** An identifier answered with a list, and market types answered with a
    list: [TypeError] and [AttributeError]. *)
Lemma decoding_errors_are_not_sdk_errors_witness :
  let data := PyList [] in
  (forall kwargs, data <> PyDict kwargs)
  /\ fst (GammaClient__request json_loads_further status_message_plain
            remote_lists "GET" "/markets/7" None [])
     = Ok data
  /\ (exists msg,
        fst (MarketsClient_get_by_id json_loads_further status_message_plain
               record_raw init_raw remote_lists "7" [])
        = Raise (PyError "TypeError" msg))
  /\ (exists msg,
        fst (SportsClient_get_market_types json_loads_further
               status_message_plain remote_lists [])
        = Raise (PyError "AttributeError" msg)).
Proof.
  intros data.
  assert (Hdata : forall kwargs, data <> PyDict kwargs) by discriminate.
  assert (Hr : fst (GammaClient__request json_loads_further status_message_plain
                      remote_lists "GET" ("/markets/" ++ "7") None [])
               = Ok data) by reflexivity.
  assert (Ht : fst (GammaClient__request json_loads_further status_message_plain
                      remote_lists "GET" "/sports/market-types" None [])
               = Ok data) by reflexivity.
  split; [exact Hdata |]. split; [exact Hr |].
  pose proof (decoding_errors_are_not_sdk_errors
                json_loads_further status_message_plain record_raw init_raw
                remote_lists [] data Hdata) as H.
  decompose [and] H. split; auto.
Defined.

(** A list of one market is returned decoded; a list with a number in
    second place raises the error of the number. *)
Lemma list_methods_all_or_nothing_witness :
  let market := [("slug", PyStr "b")] in
  ~ In "self" (map fst (@nil (string * pyvalue)))
  /\ fst (GammaClient__request json_loads_further status_message_plain
            remote_lists "GET" "/markets" (Some []) [])
     = Ok (PyList [PyDict market])
  /\ fst (MarketsClient_list json_loads_further status_message_plain
            record_raw init_raw remote_lists [] [])
     = Ok [market]
  /\ fst (GammaClient__request json_loads_further status_message_plain
            remote_lists "GET" "/tags" (Some []) [])
     = Ok (PyList [PyDict []; PyInt 1])
  /\ fst (TagsClient_list json_loads_further status_message_plain
            record_raw init_raw remote_lists [] [])
     = Raise (PyError "TypeError" "argument after ** must be a mapping").
Proof.
  intros market.
  assert (Hm : fst (GammaClient__request json_loads_further status_message_plain
                      remote_lists "GET" "/markets" (Some []) [])
               = Ok (PyList [PyDict market])) by reflexivity.
  assert (Ht : fst (GammaClient__request json_loads_further status_message_plain
                      remote_lists "GET" "/tags" (Some []) [])
               = Ok (PyList [PyDict []; PyInt 1])) by reflexivity.
  pose proof (list_methods_all_or_nothing
                json_loads_further status_message_plain record_raw init_raw
                remote_lists []) as H.
  assert (Hnil : ~ In "self" (map fst (@nil (string * pyvalue))))
    by (intros []).
  cbv zeta in H. decompose [and] H.
  split; [exact Hnil |]. split; [exact Hm |]. split.
  - match goal with
    | Hl : forall params items, _ -> _ -> _ /\ _
      |- fst (MarketsClient_list _ _ _ _ _ _ _) = _ =>
        apply (proj1 (Hl [] _ Hnil Hm))
    end.
    constructor; [reflexivity | constructor].
  - split; [exact Ht |].
    match goal with
    | Hl : forall params items, _ -> _ -> _ /\ _
      |- fst (TagsClient_list _ _ _ _ _ _ _) = _ =>
        apply (proj2 (Hl [] _ Hnil Ht))
    end.
    exists [PyDict []], (PyInt 1), [].
    split; [reflexivity |]. split; [| reflexivity].
    constructor; [eexists; reflexivity | constructor].
Defined.

(** An empty object and an empty text list nothing; null is not
    iterable. *)
Lemma list_methods_on_non_list_witness :
  ~ In "self" (map fst (@nil (string * pyvalue)))
  /\ fst (EventsClient_list json_loads_further status_message_plain
            record_raw init_raw remote_lists [] [])
     = Ok []
  /\ fst (SeriesClient_list json_loads_further status_message_plain
            record_raw init_raw remote_lists [] [])
     = Ok []
  /\ exists msg,
       fst (CommentsClient_list json_loads_further status_message_plain
              record_raw init_raw remote_lists [] [])
       = Raise (PyError "TypeError" msg).
Proof.
  pose proof (list_methods_on_non_list
                json_loads_further status_message_plain record_raw init_raw
                remote_lists [] (PyDict [])) as Hobject.
  pose proof (list_methods_on_non_list
                json_loads_further status_message_plain record_raw init_raw
                remote_lists [] (PyStr EmptyString)) as Htext.
  pose proof (list_methods_on_non_list
                json_loads_further status_message_plain record_raw init_raw
                remote_lists [] PyNone) as Hnull.
  cbv zeta in Hobject, Htext, Hnull.
  decompose [and] Hobject. decompose [and] Htext. decompose [and] Hnull.
  assert (Hnil : ~ In "self" (map fst (@nil (string * pyvalue))))
    by (intros []).
  split; [exact Hnil |]. split; [| split].
  - match goal with
    | Hl : forall params, _ -> _ -> fst (EventsClient_list _ _ _ _ _ _ _) = _ |- _ =>
        apply (Hl [] Hnil eq_refl)
    end.
  - match goal with
    | Hl : forall params, _ -> _ -> fst (SeriesClient_list _ _ _ _ _ _ _) = _ |- _ =>
        apply (Hl [] Hnil eq_refl)
    end.
  - match goal with
    | Hl : forall params, _ -> _ -> exists msg, fst (CommentsClient_list _ _ _ _ _ _ _) = _ |- _ =>
        apply (Hl [] Hnil eq_refl)
    end.
Defined.

(** A path of one segment: the error is the [ValidationError], and the
    log is as it was. *)
Lemma resolve_url_raises_only_validation_error_witness :
  let url := "https://site/invalid" in
  let e := ValidationError "Invalid Polymarket URL: https://site/invalid" in
  fst (resolve_url_on remote_misc url []) = Raise e
  /\ extract_slug url = None
  /\ snd (resolve_url_on remote_misc url []) = [].
Proof.
  intros url e.
  assert (Hr : fst (resolve_url_on remote_misc url []) = Raise e) by reflexivity.
  split; [exact Hr |].
  destruct (resolve_url_raises_only_validation_error
              json_loads_table urlparse_basic status_message_plain
              record_raw init_raw remote_misc url []) as [_ [Hraise _]].
  destruct (Hraise e Hr) as [_ [Hslug Hlog]].
  split; [exact Hslug | exact Hlog].
Defined.

(** The market is missing with status 404 and the event is there: the
    result is the event. *)
Lemma resolve_url_result_origin_witness :
  let url := "https://polymarket.com/event/fed-decision" in
  let market_lookup := mkRequest "GET" "/markets/slug/fed-decision" None in
  extract_slug url = Some "fed-decision"
  /\ (exists e,
        fst (MarketsClient_get_by_slug json_loads_table status_message_plain
               record_raw init_raw remote_event_after_404 "fed-decision" [])
        = Raise e)
  /\ fst (EventsClient_get_by_slug json_loads_table status_message_plain
            record_raw init_raw remote_event_after_404 "fed-decision"
            [market_lookup])
     = Ok []
  /\ fst (resolve_url_on remote_event_after_404 url []) = Ok (Some (inr [])).
Proof.
  intros url market_lookup.
  assert (He : extract_slug url = Some "fed-decision") by reflexivity.
  assert (Hm : exists e,
             fst (MarketsClient_get_by_slug json_loads_table status_message_plain
                    record_raw init_raw remote_event_after_404 "fed-decision" [])
             = Raise e) by (eexists; reflexivity).
  assert (Hv : fst (EventsClient_get_by_slug json_loads_table status_message_plain
                      record_raw init_raw remote_event_after_404 "fed-decision"
                      ([] ++ [mkRequest "GET" ("/markets/slug/" ++ "fed-decision")
                                None])%list)
               = Ok []) by reflexivity.
  split; [exact He |]. split; [exact Hm |]. split; [exact Hv |].
  destruct (resolve_url_result_origin
              json_loads_table urlparse_basic status_message_plain
              record_raw init_raw remote_event_after_404 url "fed-decision" [] He)
    as [_ [Hevent _]].
  apply (proj2 (Hevent [])). split; [exact Hm | exact Hv].
Defined.

(** The same slug under [event] and under [market]: the same calls and
    the same result. *)
Lemma resolve_url_depends_on_slug_only_witness :
  let url := "https://polymarket.com/event/fed-decision" in
  let url' := "https://polymarket.com/market/fed-decision" in
  extract_slug url = Some "fed-decision"
  /\ extract_slug url' = Some "fed-decision"
  /\ resolve_url_on remote_event_after_404 url []
     = resolve_url_on remote_event_after_404 url' [].
Proof.
  intros url url'.
  assert (He : extract_slug url = Some "fed-decision") by reflexivity.
  assert (He' : extract_slug url' = Some "fed-decision") by reflexivity.
  split; [exact He |]. split; [exact He' |].
  exact (proj1 (resolve_url_depends_on_slug_only
                  json_loads_table urlparse_basic status_message_plain
                  record_raw init_raw remote_event_after_404
                  url url' "fed-decision" [] He He')).
Defined.

(** The status between quotes comes back without them. *)
Lemma request_text_unwraps_quotes_witness :
  let quote := String dquote EmptyString in
  let r := mkResponse 200 (Some "text/plain; charset=utf-8") (quoted "OK") in
  remote_misc [] (mkRequest "GET" "/status" None) = Responded r
  /\ text r = quote ++ "OK" ++ quote
  /\ fst (request_on remote_misc "GET" "/status" None []) = Ok (PyStr "OK").
Proof.
  intros quote r.
  assert (Hr : remote_misc [] (mkRequest "GET" "/status" None) = Responded r)
    by reflexivity.
  assert (Hs : (200 <= status_code r <= 299)%Z) by (simpl; lia).
  assert (Ht : text r = quote ++ "OK" ++ quote) by reflexivity.
  split; [exact Hr |]. split; [exact Ht |].
  refine (proj1 (request_text_unwraps_quotes
                   json_loads_table status_message_plain remote_misc
                   "GET" "/status" None [] r quote "OK" quote
                   Hr Hs eq_refl Ht eq_refl eq_refl _ _)); discriminate.
Defined.

(** In [/market/a/b] the slug [b] follows the last slash. *)
Lemma slug_follows_last_slash_witness :
  extract_slug "https://site/market/a/b" = Some "b"
  /\ exists parsed before,
       urlparse_basic "https://site/market/a/b" = inr parsed
       /\ strip "/" (path parsed) = before ++ String slash "b"
       /\ ~ In slash (list_ascii_of_string "b").
Proof.
  assert (He : extract_slug "https://site/market/a/b" = Some "b") by reflexivity.
  split; [exact He |].
  destruct (slug_follows_last_slash urlparse_basic _ _ He)
    as [parsed [before [Hp [Hpath [Hno _]]]]].
  exists parsed, before. auto.
Defined.

(** Slashes doubled around the path: the slug is the same. *)
Lemma slug_ignores_surrounding_slashes_witness :
  let url := "https://site/market/a/b" in
  let url' := "https://site//market/a/b//" in
  urlparse_basic url'
  = inr (mkParseResult "https" "site" ("/" ++ "/market/a/b" ++ "//")
           EmptyString EmptyString EmptyString)
  /\ extract_slug url' = extract_slug url.
Proof.
  intros url url'.
  assert (Hp : urlparse_basic url
               = inr (mkParseResult "https" "site" "/market/a/b"
                        EmptyString EmptyString EmptyString)) by reflexivity.
  assert (Hp' : urlparse_basic url'
                = inr (mkParseResult "https" "site" "//market/a/b//"
                         EmptyString EmptyString EmptyString)) by reflexivity.
  split; [reflexivity |].
  exact (proj1 (slug_ignores_surrounding_slashes urlparse_basic url url'
                  _ _ "/" "//" Hp Hp' eq_refl eq_refl eq_refl)).
Defined.

(** A server error: the status of the error is the status of the
    response. *)
Lemma request_error_status_origin_witness :
  let e := GammaAPIError "API Error: Server error" (Some 500%Z)
                         (Some "Internal Server Error") in
  fst (request_on remote_misc "GET" "/series" None []) = Raise e
  /\ exists r,
       remote_misc [] (mkRequest "GET" "/series" None) = Responded r
       /\ status_code r = 500%Z /\ is_success r = false.
Proof.
  intros e.
  assert (Hr : fst (request_on remote_misc "GET" "/series" None []) = Raise e)
    by reflexivity.
  split; [exact Hr |].
  exact (request_error_status_origin
           json_loads_table status_message_plain remote_misc
           "GET" "/series" None [] e Hr).
Defined.



(** Filters that bind are passed as they are; a filter named [self]
    raises [TypeError], and no call is made. *)
Lemma subclient_methods_single_get_witness :
  let filters := [("active", PyBool true); ("limit", PyInt 5)] in
  let markets_list :=
    MarketsClient_list json_loads_table status_message_plain
      record_raw init_raw remote_misc in
  ~ In "self" (map fst filters)
  /\ snd (markets_list filters [])
     = [mkRequest "GET" "/markets" (Some filters)]
  /\ In "self" (map fst [("self", PyInt 1)])
  /\ snd (markets_list [("self", PyInt 1)] []) = []
  /\ exists msg,
       fst (markets_list [("self", PyInt 1)] [])
       = Raise (PyError "TypeError" msg).
Proof.
  intros filters markets_list.
  assert (Hs : ~ In "self" (map fst filters))
    by (simpl; intros [H | [H | []]]; discriminate).
  assert (Hin : In "self" (map fst [("self", PyInt 1)]))
    by (left; reflexivity).
  pose proof (subclient_methods_single_get
                json_loads_table status_message_plain record_raw init_raw
                remote_misc []) as H.
  decompose [and] H.
  match goal with
  | Hm : forall params, (_ -> snd (MarketsClient_list _ _ _ _ _ _ _) = _) /\ _
    |- _ =>
      destruct (Hm filters) as [Hbound _];
      destruct (Hm [("self", PyInt 1)]) as [_ Hcollide]
  end.
  destruct (Hcollide Hin) as [Hlog Hraise].
  split; [exact Hs |]. split; [exact (Hbound Hs) |].
  split; [exact Hin |]. split; [exact Hlog | exact Hraise].
Defined.
